(** * CIFAR10 notebook: the training loop and the evaluator

    A shallow embedding of the two functions of the notebook that carry
    logic, [train_model] and [test_model], together with the properties
    of the run they orchestrate.

    Modelling decisions, all of them local to this file:
    - Python floats are exact rationals ([Q]); Python ints are [Z].
    - The tensor framework (network, loss, autograd, SGD, scheduler) is an
      interface, the class [Framework]; the notebook only sequences calls
      to it.
    - A function of the notebook is a computation in the monad [M]: it
      reads and updates the [World] (the model object and the files on
      disk), may raise a Python exception, and emits the calls it makes to
      its collaborators as a list of [Event]s.
    - [copy.deepcopy(model.state_dict())] is a value capture of [weights].
*)

From Stdlib Require Import ZArith QArith Lia List.
From stdpp Require Import base numbers list strings gmap.

Local Open Scope Z_scope.

(** ** Plain data *)

(** [torch.device('cuda:0' if ... else 'cpu')] *)
Inductive Device := Cpu | Cuda (index : nat).

(** The two phases of an epoch; [phase + '_loader'] indexes [params]. *)
Inductive Phase := Train | Validation.

Definition is_train (ph : Phase) : bool :=
  match ph with Train => true | Validation => false end.

(** The Python exceptions the notebook's own arithmetic can raise. *)
Inductive DivKind := FloatDivision | IntegerModulo.
Inductive Exn := ZeroDivisionError (k : DivKind).

Inductive result (A : Type) := Ok (a : A) | Raise (e : Exn).
Arguments Ok {A} a.
Arguments Raise {A} e.

(** One row of class scores; a classifier has at least one class, the
    first component is the score of class 0. *)
Definition Scores := (Q * list Q)%type.
Definition Label := Z.

(** [logs['Accuracy'] > best_accuracy] *)
Definition Qgtb (a b : Q) : bool := negb (Qle_bool a b).

(** [torch.max(prediction, 1)[1]] on one row: the index of the first
    maximal score. *)
Fixpoint argmax_from (best_i : Z) (best_v : Q) (i : Z) (xs : list Q) : Z :=
  match xs with
  | [] => best_i
  | x :: xs' =>
      if Qgtb x best_v then argmax_from i x (i + 1) xs'
      else argmax_from best_i best_v (i + 1) xs'
  end.

Definition argmax (row : Scores) : Z := argmax_from 0 (fst row) 1 (snd row).

(** [torch.sum(torch.max(prediction, 1)[1] == label.data).item()]: the
    number of rows whose arg-max is the label of the same position; the
    network returns one row per image of the batch. *)
Definition hit (rl : Scores * Label) : bool := argmax (fst rl) =? snd rl.

Definition count_correct (prediction : list Scores) (label : list Label) : Z :=
  Z.of_nat (length (List.filter hit (combine prediction label))).

(** [range(n)] *)
Definition range (n : Z) : list Z := map Z.of_nat (seq 0 (Z.to_nat n)).

(** ** The framework interface *)

Class Framework (Image Weights Grads Optim : Type) := {
  (** [model(image)] in evaluation mode: one row per image, no state change *)
  infer : Weights -> Image -> Scores;
  (** [model(image)] in training mode: may update the buffers held in the
      state dict (batch-norm statistics) *)
  forward_train : Weights -> list Image -> Weights * list Scores;
  (** [nn.CrossEntropyLoss()] *)
  criterion : list Scores -> list Label -> Q;
  (** [loss.backward()]: accumulates into the stored gradients *)
  backward : Weights -> list (Image * Label) -> Grads -> Grads;
  (** [optimizer.zero_grad()] *)
  zero_grad : Grads -> Grads;
  (** [optim.SGD(...)] followed by [MultiStepLR(optimizer, milestones, 0.1)] *)
  sgd_init : Weights -> Q -> Q -> list Z -> Optim;
  (** [optimizer.step()] *)
  sgd_step : Optim -> Weights -> Grads -> Optim * Weights;
  (** [scheduler.step()] *)
  sched_step : Optim -> Optim
}.

Section Notebook.
Context {Image Weights Grads Optim : Type}.
Context `{FW : Framework Image Weights Grads Optim}.

Definition Batch := list (Image * Label).

(** A [DataLoader]: the dataset it wraps and the batches it yields.
    [batches i] is what the loader yields when it is iterated as the
    [i]-th iteration of the run, so that shuffling and augmentation may
    differ from one pass to the next. *)
Record Loader := {
  dataset : list (Image * Label);
  batches : nat -> list Batch
}.

(** The [params] dict of [train_model] and [test_model]. *)
Record Params := {
  description : string;
  device : Device;
  num_epochs : Z;
  learning_rate : Q;
  weight_decay : Q;
  reduce_learning_rate : list Z;
  check_point : Z;
  state_dict_path : string;
  train_loader : Loader;
  validation_loader : Loader
}.

(** [params[phase + '_loader']] *)
Definition loader (p : Params) (ph : Phase) : Loader :=
  match ph with Train => train_loader p | Validation => validation_loader p end.

(** [len(params[phase + '_loader'].dataset)] *)
Definition dataset_len (p : Params) (ph : Phase) : Z :=
  Z.of_nat (length (dataset (loader p ph))).

(** [params['state_dict_path'] + params['description'] + '.pt'] *)
Definition checkpoint_path (p : Params) : string :=
  state_dict_path p +:+ description p +:+ ".pt".

(** The model object: its state dict, the gradients stored on its
    parameters, its mode flag and the device it lives on. *)
Record Model := {
  weights : Weights;
  grads : Grads;
  training : bool;
  device_of : Device
}.

(** What a call can change and leave behind: the model object, the
    files on disk, and how many iterations over a loader have been
    started so far (this is what [batches] is indexed by). *)
Record World := {
  model : Model;
  files : gmap string Weights;
  passes : nat
}.

(** The calls made to the collaborators, in program order. [IterBegin]
    and [IterEnd] are the start and the exhaustion of a [for] loop over
    [params[phase + '_loader']]; [Forward] is a call [model(image)]. *)
Inductive Event :=
| WriterOpen (logdir : string)
| ModelTo (d : Device)
| SetTraining (b : bool)
| SchedulerStep
| IterBegin (ph : Phase)
| IterEnd (ph : Phase)
| ZeroGrad
| Forward
| Backward
| OptimizerStep
| AddScalars (tag : string) (ph : Phase) (v : Q) (epoch : Z)
| Save (path : string) (w : Weights)
| AddText (tag : string) (v : Q) (step : Z)
| WriterClose.

(** ** The monad *)

Record Outcome (A : Type) := {
  res : result A;
  final : World;
  trace : list Event
}.
Arguments res {A} _.
Arguments final {A} _.
Arguments trace {A} _.

Definition M (A : Type) := World -> Outcome A.

Definition ret {A} (a : A) : M A :=
  fun w => {| res := Ok a; final := w; trace := [] |}.

Definition raise {A} (e : Exn) : M A :=
  fun w => {| res := Raise e; final := w; trace := [] |}.

(** An outcome with the calls [t] made before it. *)
Definition prepend {A} (t : list Event) (o : Outcome A) : Outcome A :=
  match o with
  | {| res := r; final := w; trace := t' |} =>
      {| res := r; final := w; trace := t ++ t' |}
  end.

Definition bind {A B} (m : M A) (k : A -> M B) : M B :=
  fun w =>
    match m w with
    | {| res := Ok a; final := w1; trace := t1 |} => prepend t1 (k a w1)
    | {| res := Raise e; final := w1; trace := t1 |} =>
        {| res := Raise e; final := w1; trace := t1 |}
    end.

Notation "x <- m ;; k" := (bind m (fun x => k))
  (at level 100, m at next level, right associativity).
Notation "m ;;; k" := (bind m (fun _ => k))
  (at level 100, right associativity).

Definition emit (e : Event) : M unit :=
  fun w => {| res := Ok tt; final := w; trace := [e] |}.

Definition get_model : M Model :=
  fun w => {| res := Ok (model w); final := w; trace := [] |}.

Definition put_model (m : Model) : M unit :=
  fun w => {| res := Ok tt;
              final := {| model := m; files := files w; passes := passes w |};
              trace := [] |}.

(** [for x in xs: acc = f(acc, x)] *)
Fixpoint foldM {A X} (f : A -> X -> M A) (xs : list X) (acc : A) : M A :=
  match xs with
  | [] => ret acc
  | x :: xs' => acc' <- f acc x ;; foldM f xs' acc'
  end.

(** ** Primitive calls *)

(** [a / n] on a float and an int *)
Definition py_truediv (a : Q) (n : Z) : M Q :=
  if n =? 0 then raise (ZeroDivisionError FloatDivision)
  else ret (a / inject_Z n)%Q.

(** [a % n] on ints; [Z.modulo] takes the sign of the divisor, as
    Python's does. *)
Definition py_mod (a n : Z) : M Z :=
  if n =? 0 then raise (ZeroDivisionError IntegerModulo)
  else ret (a mod n).

(** [model.to(d)]: moves the module in place *)
Definition model_to (d : Device) : M unit :=
  m <- get_model ;;
  put_model {| weights := weights m; grads := grads m;
               training := training m; device_of := d |} ;;;
  emit (ModelTo d).

(** [model.train()] / [model.eval()] *)
Definition set_training (b : bool) : M unit :=
  m <- get_model ;;
  put_model {| weights := weights m; grads := grads m;
               training := b; device_of := device_of m |} ;;;
  emit (SetTraining b).

(** [optimizer.zero_grad()] *)
Definition do_zero_grad : M unit :=
  m <- get_model ;;
  put_model {| weights := weights m; grads := zero_grad (grads m);
               training := training m; device_of := device_of m |} ;;;
  emit ZeroGrad.

(** [model(image)]: the mode flag of the model selects the behaviour *)
Definition do_forward (image : list Image) : M (list Scores) :=
  m <- get_model ;;
  if training m then
    let '(w', rows) := forward_train (weights m) image in
    put_model {| weights := w'; grads := grads m;
                 training := training m; device_of := device_of m |} ;;;
    emit Forward ;;;
    ret rows
  else
    emit Forward ;;;
    ret (map (infer (weights m)) image).

(** [loss.backward()]; [w_fwd] are the weights the forward pass used *)
Definition do_backward (w_fwd : Weights) (b : Batch) : M unit :=
  m <- get_model ;;
  put_model {| weights := weights m; grads := backward w_fwd b (grads m);
               training := training m; device_of := device_of m |} ;;;
  emit Backward.

(** [optimizer.step()] *)
Definition do_optimizer_step (opt : Optim) : M Optim :=
  m <- get_model ;;
  let '(opt', w') := sgd_step opt (weights m) (grads m) in
  put_model {| weights := w'; grads := grads m;
               training := training m; device_of := device_of m |} ;;;
  emit OptimizerStep ;;;
  ret opt'.

(** [for image, label in params[phase + '_loader']]: starting the
    iteration picks the batches of this pass *)
Definition iterate (p : Params) (ph : Phase) : M (list Batch) :=
  fun w =>
    {| res := Ok (batches (loader p ph) (passes w));
       final := {| model := model w; files := files w; passes := S (passes w) |};
       trace := [IterBegin ph] |}.

(** [torch.save(obj, path)]: creates or overwrites the file *)
Definition torch_save (obj : Weights) (path : string) : M unit :=
  fun w =>
    {| res := Ok tt;
       final := {| model := model w; files := <[path := obj]> (files w);
                   passes := passes w |};
       trace := [Save path obj] |}.

(** ** test_model *)

Definition test_batch (acc : Q) (b : Batch) : M Q :=
  prediction <- do_forward (map fst b) ;;
  let accuracy := count_correct prediction (map snd b) in
  ret (acc + inject_Z accuracy)%Q.

Definition test_model (p : Params) : M Q :=
  model_to (device p) ;;;
  set_training false ;;;
  bs <- iterate p Validation ;;
  acc <- foldM test_batch bs 0%Q ;;
  emit (IterEnd Validation) ;;;
  py_truediv acc (dataset_len p Validation).

(** ** train_model *)

(** [logs = {'Loss': 0.0, 'Accuracy': 0.0}] *)
Record Logs := { Loss : Q; Accuracy : Q }.

(** The variables of [train_model] that live across epochs. *)
Record Locals := {
  optimizer : Optim;
  best_accuracy : Q;
  best_model : Weights
}.

(** The body of [for image, label in params[phase + '_loader']] *)
Definition train_batch (ph : Phase) (acc : Optim * Logs) (b : Batch)
  : M (Optim * Logs) :=
  let '(opt, logs) := acc in
  do_zero_grad ;;;
  m <- get_model ;;
  prediction <- do_forward (map fst b) ;;
  let loss := criterion prediction (map snd b) in
  let accuracy := count_correct prediction (map snd b) in
  let logs' :=
    {| Loss := (Loss logs + inject_Z (Z.of_nat (length b)) * loss)%Q;
       Accuracy := (Accuracy logs + inject_Z accuracy)%Q |} in
  if is_train ph then
    do_backward (weights m) b ;;;
    opt' <- do_optimizer_step opt ;;
    ret (opt', logs')
  else ret (opt, logs').

(** The body of [for phase in ['train', 'validation']] *)
Definition run_phase (p : Params) (epoch : Z) (loc : Locals) (ph : Phase)
  : M Locals :=
  let logs0 := {| Loss := 0; Accuracy := 0 |} in
  set_training (is_train ph) ;;;
  bs <- iterate p ph ;;
  ol <- foldM (train_batch ph) bs (optimizer loc, logs0) ;;
  let '(opt, logs) := ol in
  emit (IterEnd ph) ;;;
  loss <- py_truediv (Loss logs) (dataset_len p ph) ;;
  acc <- py_truediv (Accuracy logs) (dataset_len p ph) ;;
  emit (AddScalars "Loss" ph loss epoch) ;;;
  emit (AddScalars "Accuracy" ph acc epoch) ;;;
  if negb (is_train ph) && Qgtb acc (best_accuracy loc) then
    m <- get_model ;;
    ret {| optimizer := opt; best_accuracy := acc; best_model := weights m |}
  else
    ret {| optimizer := opt; best_accuracy := best_accuracy loc;
           best_model := best_model loc |}.

(** [epoch % params['check_point'] == 0 or epoch == params['num_epochs']-1],
    once the modulo has been computed *)
Definition checkpoint_due (p : Params) (epoch : Z) : bool :=
  (epoch mod check_point p =? 0) || (epoch =? num_epochs p - 1).

(** The body of [for epoch in range(params['num_epochs'])] *)
Definition epoch_body (p : Params) (loc : Locals) (epoch : Z) : M Locals :=
  emit SchedulerStep ;;;
  let loc0 := {| optimizer := sched_step (optimizer loc);
                 best_accuracy := best_accuracy loc;
                 best_model := best_model loc |} in
  loc1 <- run_phase p epoch loc0 Train ;;
  loc2 <- run_phase p epoch loc1 Validation ;;
  r <- py_mod epoch (check_point p) ;;
  (if (r =? 0) || (epoch =? num_epochs p - 1)
   then torch_save (best_model loc2) (checkpoint_path p)
   else ret tt) ;;;
  ret loc2.

(** Everything before the epoch loop. *)
Definition prologue (p : Params) : M Locals :=
  emit (WriterOpen ("runs/" +:+ description p)) ;;;
  model_to (device p) ;;;
  m <- get_model ;;
  let opt := sgd_init (weights m) (learning_rate p) (weight_decay p)
               (reduce_learning_rate p) in
  acc <- test_model p ;;
  m' <- get_model ;;
  ret {| optimizer := opt; best_accuracy := acc; best_model := weights m' |}.

(** Everything after the epoch loop. *)
Definition epilogue (p : Params) : M unit :=
  final_accuracy <- test_model p ;;
  emit (AddText "Final_Accuracy" final_accuracy 0) ;;;
  emit WriterClose.

Definition train_model (p : Params) : M unit :=
  loc <- prologue p ;;
  _ <- foldM (epoch_body p) (range (num_epochs p)) loc ;;
  epilogue p.

(** The run cut after its first [k] epochs: the prologue and the
    iterations [0 .. k-1] of the loop, in the same [params]. *)
Definition train_prefix (p : Params) (k : nat) : M Locals :=
  loc <- prologue p ;;
  foldM (epoch_body p) (map Z.of_nat (seq 0 k)) loc.

End Notebook.

Arguments Loader : clear implicits.
Arguments Params : clear implicits.
Arguments Model : clear implicits.
Arguments World : clear implicits.
Arguments Event : clear implicits.
Arguments Locals : clear implicits.
Arguments Outcome : clear implicits.
Arguments M : clear implicits.
Arguments res {Weights Grads A} _.
Arguments final {Weights Grads A} _.
Arguments trace {Weights Grads A} _.
Arguments prepend {Weights Grads A} _ _.

(** ** Reading a trace *)

Section Observers.
Context {Weights : Type}.
Implicit Types (e : Event Weights) (t : list (Event Weights)).

Definition phase_eqb (a b : Phase) : bool :=
  match a, b with
  | Train, Train | Validation, Validation => true
  | _, _ => false
  end.

Definition is_optimizer_step e : bool :=
  match e with OptimizerStep => true | _ => false end.
Definition is_backward e : bool :=
  match e with Backward => true | _ => false end.
Definition is_zero_grad e : bool :=
  match e with ZeroGrad => true | _ => false end.
Definition is_scheduler_step e : bool :=
  match e with SchedulerStep => true | _ => false end.
(** a loader of phase [ph] was iterated to exhaustion *)
Definition is_iter_end (ph : Phase) e : bool :=
  match e with IterEnd ph' => phase_eqb ph ph' | _ => false end.

Definition count_events (f : Event Weights -> bool) t : nat :=
  length (List.filter f t).

(** The [torch.save] calls of a trace, in order: path and object. *)
Definition saves t : list (string * Weights) :=
  omap (fun e => match e with Save path w => Some (path, w) | _ => None end) t.

(** The validation accuracies sent to the metrics writer, in order. *)
Definition val_accuracies t : list Q :=
  omap (fun e => match e with
                 | AddScalars tag Validation v _ =>
                     if String.eqb tag "Accuracy" then Some v else None
                 | _ => None
                 end) t.

(** The calls one batch gives rise to in [train_model]. *)
Definition batch_events (ph : Phase) : list (Event Weights) :=
  ZeroGrad :: Forward :: (if is_train ph then [Backward; OptimizerStep] else []).

(** The calls of one phase of one epoch over [n] batches. *)
Definition phase_events (ph : Phase) (n : nat) (loss acc : Q) (epoch : Z)
  : list (Event Weights) :=
  [SetTraining (is_train ph); IterBegin ph]
    ++ concat (replicate n (batch_events ph))
    ++ [IterEnd ph; AddScalars "Loss" ph loss epoch;
        AddScalars "Accuracy" ph acc epoch].

(** The calls of [test_model] over [n] batches. *)
Definition test_events (d : Device) (n : nat) : list (Event Weights) :=
  [ModelTo d; SetTraining false; IterBegin Validation]
    ++ replicate n Forward ++ [IterEnd Validation].

End Observers.

(** How many items of [items] the weights [w] classify correctly in
    evaluation mode. *)
Definition correct_items `{FW : Framework Image Weights Grads Optim}
    (w : Weights) (items : list (Image * Label)) : nat :=
  length (List.filter (fun il => argmax (infer w (fst il)) =? snd il) items).

(** The running total [logs['Accuracy']] of [test_model] after the batches
    [bs], from the total [acc], for the weights [wt]. *)
Definition eval_total `{FW : Framework Image Weights Grads Optim}
    (wt : Weights) (bs : list (list (Image * Label))) (acc : Q) : Q :=
  fold_left
    (fun a b => (a + inject_Z (count_correct (map (infer wt) (map fst b)) (map snd b)))%Q)
    bs acc.

(** The calls of a phase up to the end of its pass over the loader. *)
Definition pass_events {Weights : Type} (ph : Phase) (n : nat) : list (Event Weights) :=
  [SetTraining (is_train ph); IterBegin ph]
    ++ concat (replicate n (batch_events ph)) ++ [IterEnd ph].

(** What the end of a phase leaves in the variables of [train_model]:
    [acc] is the accuracy the phase measured, [wt] the weights of the
    model at that point, [opt] the optimizer. *)
Definition after_phase {Weights Optim : Type} (ph : Phase) (opt : Optim)
    (acc : Q) (wt : Weights) (loc : Locals Weights Optim) : Locals Weights Optim :=
  if negb (is_train ph) && Qgtb acc (best_accuracy loc)
  then {| optimizer := opt; best_accuracy := acc; best_model := wt |}
  else {| optimizer := opt; best_accuracy := best_accuracy loc;
          best_model := best_model loc |}.

(** The calls of one complete iteration of the epoch loop; [snap] is the
    object handed to [torch.save] when the checkpoint is due. *)
Definition epoch_events {Image Weights : Type} (p : Params Image) (epoch : Z)
    (n1 n2 : nat) (l1 a1 l2 a2 : Q) (snap : Weights) : list (Event Weights) :=
  SchedulerStep :: phase_events Train n1 l1 a1 epoch
    ++ phase_events Validation n2 l2 a2 epoch
    ++ (if checkpoint_due p epoch then [Save (checkpoint_path p) snap] else []).

(** The files on disk after that iteration. *)
Definition epoch_files {Image Weights : Type} (p : Params Image) (epoch : Z)
    (snap : Weights) (fs : gmap string Weights) : gmap string Weights :=
  if checkpoint_due p epoch then <[checkpoint_path p := snap]> fs else fs.

(** ** A small framework to run the notebook on

    Images and labels are integers, the network has two classes and one
    integer weight [w]: it answers class [(image + w) mod 2]. *)
Module Toy.

Definition toy_infer (w : Z) (image : Z) : Scores :=
  if (image + w) mod 2 =? 0 then (1%Q, [0%Q]) else (0%Q, [1%Q]).

#[export] Instance toy : Framework Z Z Z Z := {|
  infer := toy_infer;
  forward_train := fun w image => (w, map (toy_infer w) image);
  criterion := fun _ _ => 1%Q;
  backward := fun _ b g => g + Z.of_nat (length b);
  zero_grad := fun _ => 0;
  sgd_init := fun _ _ _ _ => 0;
  sgd_step := fun opt w g => (opt + 1, w + g);
  sched_step := fun opt => opt + 100
|}.

(** A loader that yields its dataset as one batch, the same each pass. *)
Definition one_batch (ds : list (Z * Label)) : Loader Z :=
  {| dataset := ds; batches := fun _ => [ds] |}.

(** The same network, deaf to its input: always class 0. *)
Definition always0 : Framework Z Z Z Z := {|
  infer := fun _ _ => (1%Q, [0%Q]);
  forward_train := fun w image => (w, map (fun _ => (1%Q, [0%Q])) image);
  criterion := fun _ _ => 1%Q;
  backward := fun _ b g => g + Z.of_nat (length b);
  zero_grad := fun _ => 0;
  sgd_init := fun _ _ _ _ => 0;
  sgd_step := fun opt w g => (opt + 1, w + g);
  sched_step := fun opt => opt + 100
|}.

Definition val_items : list (Z * Label) := [(0, 1); (0, 1); (0, 1); (1, 0)].
Definition half_items : list (Z * Label) := [(0, 0); (0, 0); (0, 1); (0, 1)].
Definition train_items : list (Z * Label) := [(0, 0); (1, 1); (2, 0)].

Definition toy_params (epochs interval : Z) : Params Z :=
  {| description := "toy";
     device := Cpu;
     num_epochs := epochs;
     learning_rate := 5 # 100;
     weight_decay := 1 # 1000;
     reduce_learning_rate := [200; 400];
     check_point := interval;
     state_dict_path := "trained_models/";
     train_loader := one_batch train_items;
     validation_loader := one_batch val_items |}.

(** The evaluation scenario: one batch of four images labelled
    [0; 0; 1; 1]. *)
Definition scenario_params : Params Z :=
  {| description := "scenario";
     device := Cpu;
     num_epochs := 0;
     learning_rate := 5 # 100;
     weight_decay := 1 # 1000;
     reduce_learning_rate := [];
     check_point := 1;
     state_dict_path := "trained_models/";
     train_loader := one_batch train_items;
     validation_loader := one_batch half_items |}.

Definition fresh_locals : Locals Z Z :=
  {| optimizer := 0; best_accuracy := 0; best_model := 0 |}.

(** A fresh module is in training mode. *)
Definition world0 : World Z Z :=
  {| model := {| weights := 0; grads := 0; training := true; device_of := Cpu |};
     files := ∅;
     passes := 0 |}.

End Toy.

(** ** More readings of a trace *)

Section MoreObservers.
Context {Weights : Type}.
Implicit Types (e : Event Weights) (t : list (Event Weights)).

Definition is_writer_open e : bool :=
  match e with WriterOpen _ => true | _ => false end.
Definition is_writer_close e : bool :=
  match e with WriterClose => true | _ => false end.
Definition is_add_text e : bool :=
  match e with AddText _ _ _ => true | _ => false end.
Definition is_forward e : bool :=
  match e with Forward => true | _ => false end.

(** The [writer.add_scalars(tag, {phase: _}, epoch)] calls of a trace, in
    order, without the value. *)
Definition scalar_keys t : list (string * Phase * Z) :=
  omap (fun e => match e with
                 | AddScalars tag ph _ epoch => Some (tag, ph, epoch)
                 | _ => None
                 end) t.

(** The values of the [writer.add_text('Final_Accuracy', _, 0)] calls. *)
Definition final_accuracies t : list Q :=
  omap (fun e => match e with
                 | AddText tag v _ =>
                     if String.eqb tag "Final_Accuracy" then Some v else None
                 | _ => None
                 end) t.

(** The keys one epoch logs, in the order of the code. *)
Definition epoch_keys (epoch : Z) : list (string * Phase * Z) :=
  [("Loss"%string, Train, epoch); ("Accuracy"%string, Train, epoch);
   ("Loss"%string, Validation, epoch); ("Accuracy"%string, Validation, epoch)].

End MoreObservers.

(** How many batches the training loader yields over the first [k]
    epochs of a run started in a world with [n] passes behind it: the
    baseline evaluation is pass [n], epoch [e] trains on pass
    [n + 1 + 2e] and validates on pass [n + 2 + 2e]. *)
Definition train_batches_upto {Image : Type} (p : Params Image) (n k : nat) : nat :=
  sum_list (map (fun e => length (batches (train_loader p) (S n + 2 * e))) (seq 0 k)).

Definition val_batches_upto {Image : Type} (p : Params Image) (n k : nat) : nat :=
  sum_list (map (fun e => length (batches (validation_loader p) (S (S n) + 2 * e)))
              (seq 0 k)).

(** The model a validation phase over [n2] batches leaves, from the model
    [m1] it found: the gradients cleared [n2] times, the mode set to
    evaluation. *)
Definition after_validation `{FW : Framework Image Weights Grads Optim}
    (m1 : Model Weights Grads) (n2 : nat) : Model Weights Grads :=
  {| weights := weights m1; grads := Nat.iter n2 zero_grad (grads m1);
     training := false; device_of := device_of m1 |}.

(** ** make_dataloaders *)

(** The [params] dict of [make_dataloaders]. [DataLoader] accepts a
    batch size only if it is a positive integer and a worker count only
    if it is not negative; the types keep to these values. *)
Record DataParams := {
  path : string;
  batch_size : positive;
  num_workers : nat
}.

(** What [make_dataloaders] leaves to the dataset library: reading a
    split of CIFAR-10 from disk, the two deterministic steps of both
    transform pipelines, the two random steps of the training pipeline
    and the random order of a shuffling loader. Randomness is a function
    of the pass and, for the transform, of the index of the item. *)
Class DataLib (Raw Image : Type) := {
  (** [torchvision.datasets.CIFAR10(root, train)]: the items of the split,
      or nothing when the files are not under [root] (no [download]) *)
  cifar10 : string -> bool -> option (list (Raw * Label));
  (** [ToTensor()] then [Normalize(mean, std)] *)
  to_tensor_normalize : Raw -> Image;
  (** [RandomCrop(32, padding=4)] then [RandomHorizontalFlip()] *)
  random_crop_flip : nat -> nat -> Raw -> Raw;
  (** the order in which a loader with [shuffle=True] reads [n] items *)
  random_order : nat -> nat -> list nat;
  random_order_perm : forall pass n, Permutation (random_order pass n) (seq 0 n)
}.

(** Batching as [DataLoader] does it with [drop_last] left at [False]:
    [bs] items at a time in the order given, the last batch taking what
    is left. The fuel is the length of the list. *)
Fixpoint chunks_fuel {A} (fuel bs : nat) (l : list A) : list (list A) :=
  match fuel with
  | O => []
  | S fuel' =>
      match l with
      | [] => []
      | _ :: _ => take bs l :: chunks_fuel fuel' bs (drop bs l)
      end
  end.

Definition chunks {A} (bs : nat) (l : list A) : list (list A) :=
  chunks_fuel (length l) bs l.

Inductive LoaderError := DatasetNotFound (train : bool).

Section MakeDataloaders.
Context {Raw Image : Type} `{DL : DataLib Raw Image}.

(** [transform_validation] on one item *)
Definition transform_validation (rl : Raw * Label) : Image * Label :=
  (to_tensor_normalize (fst rl), snd rl).

(** [transform_train] on the items of a dataset read at pass [pass],
    item [i] being the first of [l] *)
Fixpoint transform_train (pass i : nat) (l : list (Raw * Label))
  : list (Image * Label) :=
  match l with
  | [] => []
  | rl :: l' =>
      (to_tensor_normalize (random_crop_flip pass i (fst rl)), snd rl)
        :: transform_train pass (S i) l'
  end.

(** One pass of the training loader: the items in the order of the
    sampler, each transformed as it is read. *)
Definition train_pass (trainset : list (Raw * Label)) (pass : nat)
  : list (Image * Label) :=
  omap (fun j => transform_train pass 0 trainset !! j)
    (random_order pass (length trainset)).

(** The [dataset] of the training loader is read by the notebook for
    its length only. *)
Definition make_dataloaders (params : DataParams)
  : LoaderError + (Loader Image * Loader Image) :=
  match cifar10 (path params) true with
  | None => inl (DatasetNotFound true)
  | Some trainset =>
      match cifar10 (path params) false with
      | None => inl (DatasetNotFound false)
      | Some testset =>
          let bs := Pos.to_nat (batch_size params) in
          let trainloader :=
            {| dataset := map transform_validation trainset;
               batches := fun pass => chunks bs (train_pass trainset pass) |} in
          let testloader :=
            {| dataset := map transform_validation testset;
               batches := fun _ => chunks bs (map transform_validation testset) |} in
          inr (trainloader, testloader)
      end
  end.

End MakeDataloaders.

(** A small dataset library: five training and five test items under
    the root ["data"], nothing elsewhere; the augmentation adds 2 to an
    image, a shuffling loader reads backwards. *)
Module ToyData.

#[export] Instance toy_data : DataLib Z Z := {|
  cifar10 := fun root train =>
    if String.eqb root "data"
    then Some (if train
               then [(0, 0); (1, 1); (2, 0); (3, 1); (4, 0)]
               else [(0, 1); (0, 1); (0, 1); (1, 0); (2, 0)])
    else None;
  to_tensor_normalize := fun r => r;
  random_crop_flip := fun _ _ r => r + 2;
  random_order := fun _ n => rev (seq 0 n);
  random_order_perm := fun _ n => Permutation_sym (Permutation_rev (seq 0 n))
|}.

Definition data_params (bs : positive) : DataParams :=
  {| path := "data"; batch_size := bs; num_workers := 4 |}.

(** The loaders [make_dataloaders] builds, or empty ones. *)
Definition loaders (bs : positive) : Loader Z * Loader Z :=
  match make_dataloaders (data_params bs) with
  | inr trte => trte
  | inl _ => ({| dataset := []; batches := fun _ => [] |},
              {| dataset := []; batches := fun _ => [] |})
  end.

Definition run_params (bs : positive) (epochs interval : Z) : Params Z :=
  {| description := "toy";
     device := Cpu;
     num_epochs := epochs;
     learning_rate := 5 # 100;
     weight_decay := 1 # 1000;
     reduce_learning_rate := [200; 400];
     check_point := interval;
     state_dict_path := "trained_models/";
     train_loader := fst (loaders bs);
     validation_loader := snd (loaders bs) |}.

End ToyData.

(** * Properties *)

Section Laws.
Context {Image Weights Grads Optim : Type}.
Context `{FW : Framework Image Weights Grads Optim}.
Implicit Types (w : World Weights Grads) (p : Params Image).
Local Abbreviation M := (M Weights Grads).
Local Abbreviation Outcome := (Outcome Weights Grads).

(** ** The monad *)

Lemma bind_ok {A B} (m : M A) (k : A -> M B) w a :
  res (m w) = Ok a ->
  bind m k w = prepend (trace (m w)) (k a (final (m w))).
Proof. unfold bind. destruct (m w) as [r w1 t1]; cbn. now intros ->. Qed.

Lemma bind_raise {A B} (m : M A) (k : A -> M B) w e :
  res (m w) = Raise e ->
  bind m k w = {| res := Raise e; final := final (m w); trace := trace (m w) |}.
Proof. unfold bind. destruct (m w) as [r w1 t1]; cbn. now intros ->. Qed.

Lemma res_prepend {A} (t : list (Event Weights)) (o : Outcome A) :
  res (prepend t o) = res o.
Proof. now destruct o. Qed.

Lemma final_prepend {A} (t : list (Event Weights)) (o : Outcome A) :
  final (prepend t o) = final o.
Proof. now destruct o. Qed.

Lemma trace_prepend {A} (t : list (Event Weights)) (o : Outcome A) :
  trace (prepend t o) = t ++ trace o.
Proof. now destruct o. Qed.

Lemma outcome_eta {A} (o : Outcome A) :
  o = {| res := res o; final := final o; trace := trace o |} :> Outcome A.
Proof. now destruct o. Qed.

Lemma bind_assoc {A B C} (m : M A) (k : A -> M B) (h : B -> M C) w :
  bind (bind m k) h w = bind m (fun a => bind (k a) h) w.
Proof.
  unfold bind. destruct (m w) as [[a|e] w1 t1]; cbn; [|reflexivity].
  destruct (k a w1) as [[b|e] w2 t2]; cbn; [|reflexivity].
  destruct (h b w2) as [r w3 t3]; cbn. now rewrite app_assoc.
Qed.

Lemma bind_ret_r {A} (m : M A) w : bind m ret w = m w.
Proof.
  unfold bind, ret. destruct (m w) as [[a|e] w1 t1]; cbn; [|reflexivity].
  now rewrite app_nil_r.
Qed.

Lemma bind_ext {A B} (m : M A) (k k' : A -> M B) w :
  (forall a w', k a w' = k' a w') -> bind m k w = bind m k' w.
Proof.
  intros E. unfold bind. destruct (m w) as [[a|e] w1 t1]; now rewrite ?E.
Qed.

Lemma foldM_app {A X} (f : A -> X -> M A) (xs ys : list X) (acc : A) w :
  foldM f (xs ++ ys) acc w = bind (foldM f xs acc) (foldM f ys) w.
Proof.
  revert acc w. induction xs as [|x xs IH]; intros acc w; cbn.
  - unfold bind, ret; cbn. now destruct (foldM f ys acc w) as [[a|e] w1 t1].
  - rewrite bind_assoc. apply bind_ext. intros a w'. apply IH.
Qed.

Lemma foldM_snoc {A X} (f : A -> X -> M A) (xs : list X) (x : X) (acc : A) w :
  foldM f (xs ++ [x]) acc w = bind (foldM f xs acc) (fun a => f a x) w.
Proof.
  rewrite foldM_app. apply bind_ext. intros a w'. cbn. apply bind_ret_r.
Qed.

(** ** Reading traces *)

Lemma count_events_app (f : Event Weights -> bool) (t1 t2 : list (Event Weights)) :
  count_events f (t1 ++ t2) = (count_events f t1 + count_events f t2)%nat.
Proof. unfold count_events. now rewrite List.filter_app, length_app. Qed.

Lemma saves_app (t1 t2 : list (Event Weights)) :
  saves (t1 ++ t2) = saves t1 ++ saves t2.
Proof. apply omap_app. Qed.

Lemma val_accuracies_app (t1 t2 : list (Event Weights)) :
  val_accuracies (t1 ++ t2) = val_accuracies t1 ++ val_accuracies t2.
Proof. apply omap_app. Qed.

End Laws.

(** ** What each piece of the loop does *)

Section Steps.
Context {Image Weights Grads Optim : Type}.
Context `{FW : Framework Image Weights Grads Optim}.
Implicit Types (w : World Weights Grads) (p : Params Image).
Implicit Types (loc : Locals Weights Optim) (b : Batch (Image := Image)).
Local Abbreviation M := (M Weights Grads).
Local Abbreviation Outcome := (Outcome Weights Grads).

Lemma bind_eq {A B} (m : M A) (k : A -> M B) w a w1 t1 :
  m w = {| res := Ok a; final := w1; trace := t1 |} ->
  bind m k w = prepend t1 (k a w1).
Proof. intros E. unfold bind. now rewrite E. Qed.

Lemma bind_eq_raise {A B} (m : M A) (k : A -> M B) w e w1 t1 :
  m w = {| res := Raise e; final := w1; trace := t1 |} ->
  bind m k w = {| res := Raise e; final := w1; trace := t1 |}.
Proof. intros E. unfold bind. now rewrite E. Qed.

Lemma set_training_run (b : bool) w :
  set_training b w =
    {| res := Ok tt;
       final := {| model := {| weights := weights (model w); grads := grads (model w);
                               training := b; device_of := device_of (model w) |};
                   files := files w; passes := passes w |};
       trace := [SetTraining b] |}.
Proof. reflexivity. Qed.

Lemma model_to_run (d : Device) w :
  model_to d w =
    {| res := Ok tt;
       final := {| model := {| weights := weights (model w); grads := grads (model w);
                               training := training (model w); device_of := d |};
                   files := files w; passes := passes w |};
       trace := [ModelTo d] |}.
Proof. reflexivity. Qed.

Lemma do_zero_grad_run w :
  do_zero_grad w =
    {| res := Ok tt;
       final := {| model := {| weights := weights (model w);
                               grads := zero_grad (grads (model w));
                               training := training (model w);
                               device_of := device_of (model w) |};
                   files := files w; passes := passes w |};
       trace := [ZeroGrad] |}.
Proof. reflexivity. Qed.

Lemma do_backward_run (wt : Weights) b w :
  do_backward wt b w =
    {| res := Ok tt;
       final := {| model := {| weights := weights (model w);
                               grads := backward wt b (grads (model w));
                               training := training (model w);
                               device_of := device_of (model w) |};
                   files := files w; passes := passes w |};
       trace := [Backward] |}.
Proof. reflexivity. Qed.

Ltac settle := cbn [prepend res final trace ret raise app].

Lemma do_forward_run (image : list Image) w :
  exists rows wt',
    do_forward image w =
      {| res := Ok rows;
         final := {| model := {| weights := wt';
                                 grads := grads (model w);
                                 training := training (model w);
                                 device_of := device_of (model w) |};
                     files := files w; passes := passes w |};
         trace := [Forward] |}
    /\ (training (model w) = false -> wt' = weights (model w)).
Proof.
  destruct w as [[wt g tr d] fs n]. unfold do_forward.
  erewrite bind_eq by reflexivity. cbn [model training weights].
  destruct tr.
  - destruct (forward_train wt image) as [wt' rows] eqn:Ef.
    exists rows, wt'. split; [|discriminate].
    erewrite bind_eq by reflexivity. erewrite bind_eq by reflexivity.
    reflexivity.
  - exists (map (infer wt) image), wt. split; [|reflexivity].
    erewrite bind_eq by reflexivity. reflexivity.
Qed.

Lemma do_optimizer_step_run (opt : Optim) w :
  exists opt' wt',
    do_optimizer_step opt w =
      {| res := Ok opt';
         final := {| model := {| weights := wt';
                                 grads := grads (model w);
                                 training := training (model w);
                                 device_of := device_of (model w) |};
                     files := files w; passes := passes w |};
         trace := [OptimizerStep] |}.
Proof.
  destruct w as [[wt g tr d] fs n]. unfold do_optimizer_step.
  erewrite bind_eq by reflexivity. cbn [model weights grads].
  destruct (sgd_step opt wt g) as [opt' wt'] eqn:Es.
  exists opt', wt'.
  erewrite bind_eq by reflexivity. erewrite bind_eq by reflexivity.
  reflexivity.
Qed.

(** One batch of the training loop: it never raises, touches only the
    model, and keeps mode and device. *)
Lemma train_batch_run ph (opt : Optim) logs b w :
  exists opt' logs' m',
    train_batch ph (opt, logs) b w =
      {| res := Ok (opt', logs');
         final := {| model := m'; files := files w; passes := passes w |};
         trace := batch_events ph |}
    /\ training m' = training (model w)
    /\ device_of m' = device_of (model w)
    /\ (training (model w) = false -> is_train ph = false ->
        weights m' = weights (model w) /\ opt' = opt).
Proof.
  destruct w as [[wt g tr d] fs n].
  unfold train_batch.
  erewrite bind_eq by apply do_zero_grad_run.
  erewrite bind_eq by reflexivity.
  cbn [model files passes weights grads training device_of].
  destruct (do_forward_run (map fst b)
              {| model := {| weights := wt; grads := zero_grad g;
                             training := tr; device_of := d |};
                 files := fs; passes := n |})
    as (rows & wt' & Ef & Hwt).
  cbn [model files passes weights grads training device_of] in Ef, Hwt.
  erewrite bind_eq by exact Ef.
  destruct ph; cbn [is_train].
  - erewrite bind_eq by apply do_backward_run.
    cbn [model files passes weights grads training device_of].
    destruct (do_optimizer_step_run opt
                {| model := {| weights := wt'; grads := backward wt b (zero_grad g);
                               training := tr; device_of := d |};
                   files := fs; passes := n |})
      as (opt' & wt'' & Es).
    cbn [model files passes weights grads training device_of] in Es.
    erewrite bind_eq by exact Es.
    do 3 eexists. split; [reflexivity|].
    cbn [training device_of model]. repeat split; discriminate.
  - do 3 eexists. split; [reflexivity|].
    cbn [training device_of weights model]. repeat split; auto.
Qed.

(** All the batches of one pass. *)
Lemma train_batches_run ph bs (opt : Optim) logs w :
  exists opt' logs' m',
    foldM (train_batch ph) bs (opt, logs) w =
      {| res := Ok (opt', logs');
         final := {| model := m'; files := files w; passes := passes w |};
         trace := concat (replicate (length bs) (batch_events ph)) |}
    /\ training m' = training (model w)
    /\ device_of m' = device_of (model w)
    /\ (training (model w) = false -> is_train ph = false ->
        weights m' = weights (model w) /\ opt' = opt).
Proof.
  revert opt logs w. induction bs as [|b bs IH]; intros opt logs w.
  - exists opt, logs, (model w). destruct w; cbn. repeat split; reflexivity.
  - destruct (train_batch_run ph opt logs b w)
      as (opt1 & logs1 & m1 & E1 & Ht1 & Hd1 & Hw1).
    destruct (IH opt1 logs1 {| model := m1; files := files w; passes := passes w |})
      as (opt2 & logs2 & m2 & E2 & Ht2 & Hd2 & Hw2).
    cbn in E2, Ht2, Hd2, Hw2.
    exists opt2, logs2, m2. split.
    + cbn [foldM]. rewrite (bind_ok _ _ _ (opt1, logs1)) by now rewrite E1.
      rewrite E1; cbn. rewrite E2; cbn. reflexivity.
    + split; [congruence|]. split; [congruence|].
      intros Hf Hp. destruct (Hw1 Hf Hp) as [Ew Eo].
      destruct (Hw2 (eq_trans Ht1 Hf) Hp) as [Ew' Eo'].
      split; congruence.
Qed.

(** The batches of [test_model], on a model in evaluation mode. *)
Lemma test_batches_run (bs : list (Batch (Image := Image))) (acc : Q) w :
  training (model w) = false ->
  foldM test_batch bs acc w =
    {| res := Ok (eval_total (weights (model w)) bs acc);
       final := w;
       trace := replicate (length bs) Forward |}.
Proof.
  intros Hm. revert acc. induction bs as [|b bs IH]; intros acc.
  - reflexivity.
  - cbn [foldM]. erewrite bind_eq; cycle 1.
    { unfold test_batch, do_forward, bind, get_model, emit, ret; cbn.
      rewrite Hm; cbn. reflexivity. }
    rewrite IH. reflexivity.
Qed.

(** [test_model], whole. *)
Lemma test_model_run p w :
  let bs := batches (validation_loader p) (passes w) in
  test_model p w =
    {| res := if dataset_len p Validation =? 0
              then Raise (ZeroDivisionError FloatDivision)
              else Ok (eval_total (weights (model w)) bs 0
                       / inject_Z (dataset_len p Validation))%Q;
       final := {| model := {| weights := weights (model w);
                               grads := grads (model w);
                               training := false;
                               device_of := device p |};
                   files := files w;
                   passes := S (passes w) |};
       trace := test_events (device p) (length bs) |}.
Proof.
  intros bs. unfold test_model.
  erewrite bind_eq by apply model_to_run.
  erewrite bind_eq by apply set_training_run.
  erewrite bind_eq by reflexivity.
  erewrite bind_eq by (apply test_batches_run; reflexivity).
  erewrite bind_eq by reflexivity.
  cbn. unfold py_truediv.
  destruct (dataset_len p Validation =? 0); cbn;
    unfold test_events; rewrite ?app_nil_r; reflexivity.
Qed.

(** One phase of one epoch. The only way it can fail is the division
    by the length of an empty dataset. *)
Lemma run_phase_run p epoch loc ph w :
  let n := length (batches (loader p ph) (passes w)) in
  exists opt' loss acc m',
    training m' = is_train ph
    /\ device_of m' = device_of (model w)
    /\ (is_train ph = false -> weights m' = weights (model w))
    /\ run_phase p epoch loc ph w =
         if dataset_len p ph =? 0 then
           {| res := Raise (ZeroDivisionError FloatDivision);
              final := {| model := m'; files := files w; passes := S (passes w) |};
              trace := pass_events ph n |}
         else
           {| res := Ok (after_phase ph opt' acc (weights m') loc);
              final := {| model := m'; files := files w; passes := S (passes w) |};
              trace := phase_events ph n loss acc epoch |}.
Proof.
  intros n.
  destruct (train_batches_run ph (batches (loader p ph) (passes w))
              (optimizer loc) {| Loss := 0; Accuracy := 0 |}
              {| model := {| weights := weights (model w); grads := grads (model w);
                             training := is_train ph;
                             device_of := device_of (model w) |};
                 files := files w; passes := S (passes w) |})
    as (opt' & logs' & m' & E & Ht & Hd & Hw).
  cbn in E, Ht, Hd, Hw.
  exists opt', (Loss logs' / inject_Z (dataset_len p ph))%Q,
    (Accuracy logs' / inject_Z (dataset_len p ph))%Q, m'.
  split; [exact Ht|]. split; [exact Hd|].
  split; [intros Hp; rewrite Hp in Hw; now apply Hw|].
  unfold run_phase.
  erewrite bind_eq by apply set_training_run.
  erewrite bind_eq by reflexivity.
  cbn [final]. erewrite bind_eq by exact E.
  cbn beta iota. erewrite bind_eq by reflexivity.
  unfold py_truediv.
  destruct (dataset_len p ph =? 0); cbn.
  - reflexivity.
  - unfold phase_events, after_phase.
    destruct (negb (is_train ph) && Qgtb _ _); cbn; rewrite <- ?app_assoc; reflexivity.
Qed.

(** One iteration of the epoch loop. It fails on an empty dataset and
    on a zero checkpoint interval, and in no other way. *)
Lemma epoch_body_run p loc epoch w :
  let n1 := length (batches (train_loader p) (passes w)) in
  let n2 := length (batches (validation_loader p) (S (passes w))) in
  exists opt' l1 a1 l2 a2 m1 m2,
    let loc' := after_phase Validation opt' a2 (weights m2) loc in
    let w1 := {| model := m1; files := files w; passes := S (passes w) |} in
    let w2 := {| model := m2; files := files w; passes := S (S (passes w)) |} in
    let t1 := SchedulerStep :: phase_events Train n1 l1 a1 epoch in
    epoch_body p loc epoch w =
      if dataset_len p Train =? 0 then
        {| res := Raise (ZeroDivisionError FloatDivision); final := w1;
           trace := SchedulerStep :: pass_events Train n1 |}
      else if dataset_len p Validation =? 0 then
        {| res := Raise (ZeroDivisionError FloatDivision); final := w2;
           trace := t1 ++ pass_events Validation n2 |}
      else if check_point p =? 0 then
        {| res := Raise (ZeroDivisionError IntegerModulo); final := w2;
           trace := t1 ++ phase_events Validation n2 l2 a2 epoch |}
      else if checkpoint_due p epoch then
        {| res := Ok loc';
           final := {| model := m2;
                       files := <[checkpoint_path p := best_model loc']> (files w);
                       passes := S (S (passes w)) |};
           trace := t1 ++ phase_events Validation n2 l2 a2 epoch
                      ++ [Save (checkpoint_path p) (best_model loc')] |}
      else
        {| res := Ok loc'; final := w2;
           trace := t1 ++ phase_events Validation n2 l2 a2 epoch |}.
Proof.
  intros n1 n2.
  set (loc0 := {| optimizer := sched_step (optimizer loc);
                  best_accuracy := best_accuracy loc;
                  best_model := best_model loc |}).
  destruct (run_phase_run p epoch loc0 Train w)
    as (opt1 & l1 & a1 & m1 & _ & _ & _ & E1).
  destruct (run_phase_run p epoch (after_phase Train opt1 a1 (weights m1) loc0)
              Validation
              {| model := m1; files := files w; passes := S (passes w) |})
    as (opt2 & l2 & a2 & m2 & _ & _ & _ & E2).
  cbn [passes files model loader] in E1, E2.
  exists opt2, l1, a1, l2, a2, m1, m2. cbn zeta.
  unfold epoch_body. fold loc0.
  erewrite bind_eq by reflexivity.
  destruct (dataset_len p Train =? 0).
  { erewrite bind_eq_raise by exact E1. reflexivity. }
  erewrite bind_eq by exact E1.
  destruct (dataset_len p Validation =? 0).
  { erewrite bind_eq_raise by exact E2. reflexivity. }
  erewrite bind_eq by exact E2.
  unfold py_mod.
  destruct (check_point p =? 0).
  { erewrite bind_eq_raise by reflexivity. settle.
    rewrite ?app_nil_r, <- ?app_assoc. reflexivity. }
  erewrite bind_eq by reflexivity.
  unfold checkpoint_due.
  destruct ((epoch mod check_point p =? 0) || (epoch =? num_epochs p - 1)).
  - erewrite bind_eq by reflexivity. settle.
    rewrite ?app_nil_r, <- ?app_assoc. reflexivity.
  - erewrite bind_eq by reflexivity. settle.
    rewrite ?app_nil_r, <- ?app_assoc. reflexivity.
Qed.

(** The iteration succeeds exactly when both datasets are non-empty
    and the checkpoint interval is not zero. *)
Lemma epoch_body_ok_inv p loc epoch w loc' :
  res (epoch_body p loc epoch w) = Ok loc' ->
  dataset_len p Train <> 0 /\ dataset_len p Validation <> 0 /\ check_point p <> 0.
Proof.
  destruct (epoch_body_run p loc epoch w)
    as (opt' & l1 & a1 & l2 & a2 & m1 & m2 & E).
  cbn zeta in E. rewrite E. clear E.
  destruct (Z.eqb_spec (dataset_len p Train) 0); [discriminate|].
  destruct (Z.eqb_spec (dataset_len p Validation) 0); [discriminate|].
  destruct (Z.eqb_spec (check_point p) 0); [discriminate|].
  intros _. repeat split; assumption.
Qed.

Lemma epoch_body_ok p loc epoch w :
  dataset_len p Train <> 0 -> dataset_len p Validation <> 0 -> check_point p <> 0 ->
  let n1 := length (batches (train_loader p) (passes w)) in
  let n2 := length (batches (validation_loader p) (S (passes w))) in
  exists opt' l1 a1 l2 a2 m2,
    let loc' := after_phase Validation opt' a2 (weights m2) loc in
    epoch_body p loc epoch w =
      {| res := Ok loc';
         final := {| model := m2;
                     files := epoch_files p epoch (best_model loc') (files w);
                     passes := S (S (passes w)) |};
         trace := epoch_events p epoch n1 n2 l1 a1 l2 a2 (best_model loc') |}.
Proof.
  intros Ht Hv Hc n1 n2.
  destruct (epoch_body_run p loc epoch w)
    as (opt' & l1 & a1 & l2 & a2 & m1 & m2 & E).
  cbn zeta in E. exists opt', l1, a1, l2, a2, m2. cbn zeta.
  rewrite E. clear E.
  destruct (Z.eqb_spec (dataset_len p Train) 0); [contradiction|].
  destruct (Z.eqb_spec (dataset_len p Validation) 0); [contradiction|].
  destruct (Z.eqb_spec (check_point p) 0); [contradiction|].
  unfold epoch_events, epoch_files. fold n1 n2.
  destruct (checkpoint_due p epoch); cbn; rewrite ?app_nil_r; reflexivity.
Qed.

(** ** The run, epoch by epoch *)

Lemma prologue_run p w :
  let bs := batches (validation_loader p) (passes w) in
  prologue p w =
    {| res := if dataset_len p Validation =? 0
              then Raise (ZeroDivisionError FloatDivision)
              else Ok {| optimizer := sgd_init (weights (model w)) (learning_rate p)
                                        (weight_decay p) (reduce_learning_rate p);
                         best_accuracy := (eval_total (weights (model w)) bs 0
                                           / inject_Z (dataset_len p Validation))%Q;
                         best_model := weights (model w) |};
       final := {| model := {| weights := weights (model w);
                               grads := grads (model w);
                               training := false;
                               device_of := device p |};
                   files := files w;
                   passes := S (passes w) |};
       trace := WriterOpen ("runs/" +:+ description p) :: ModelTo (device p)
                  :: test_events (device p) (length bs) |}.
Proof.
  intros bs. unfold prologue.
  erewrite bind_eq by reflexivity.
  erewrite bind_eq by apply model_to_run.
  erewrite bind_eq by reflexivity.
  cbn [final model weights]. 
  pose proof (test_model_run p
    {| model := {| weights := weights (model w); grads := grads (model w);
                   training := training (model w); device_of := device p |};
       files := files w; passes := passes w |}) as E.
  cbn [passes files model weights grads] in E. fold bs in E.
  destruct (dataset_len p Validation =? 0).
  - erewrite bind_eq_raise by exact E. reflexivity.
  - erewrite bind_eq by exact E. erewrite bind_eq by reflexivity.
    settle. rewrite ?app_nil_r. reflexivity.
Qed.

Lemma epilogue_run p w :
  let bs := batches (validation_loader p) (passes w) in
  let w' := {| model := {| weights := weights (model w);
                           grads := grads (model w);
                           training := false;
                           device_of := device p |};
               files := files w;
               passes := S (passes w) |} in
  exists acc,
    epilogue p w =
      if dataset_len p Validation =? 0 then
        {| res := Raise (ZeroDivisionError FloatDivision);
           final := w';
           trace := test_events (device p) (length bs) |}
      else
        {| res := Ok tt;
           final := w';
           trace := test_events (device p) (length bs)
                      ++ [AddText "Final_Accuracy" acc 0; WriterClose] |}.
Proof.
  intros bs w'.
  exists (eval_total (weights (model w)) bs 0 / inject_Z (dataset_len p Validation))%Q.
  unfold epilogue. pose proof (test_model_run p w) as E. cbn zeta in E.
  fold bs w' in E.
  destruct (dataset_len p Validation =? 0).
  - erewrite bind_eq_raise by exact E. reflexivity.
  - erewrite bind_eq by exact E. reflexivity.
Qed.

Lemma train_prefix_S p k w :
  train_prefix p (S k) w =
    bind (train_prefix p k) (fun loc => epoch_body p loc (Z.of_nat k)) w.
Proof.
  unfold train_prefix. rewrite seq_S, map_app. cbn [map Nat.add].
  rewrite bind_assoc. apply bind_ext. intros loc w'. apply foldM_snoc.
Qed.

Lemma train_model_prefix p w :
  train_model p w =
    bind (train_prefix p (Z.to_nat (num_epochs p))) (fun _ => epilogue p) w.
Proof.
  unfold train_model, train_prefix, range. now rewrite bind_assoc.
Qed.

End Steps.

(** ** Counting on traces and on datasets *)

Section Counting.
Context {Image Weights Grads Optim : Type}.
Context `{FW : Framework Image Weights Grads Optim}.
Implicit Types (t : list (Event Weights)) (f : Event Weights -> bool).

Lemma count_events_concat_replicate f n t :
  count_events f (concat (replicate n t)) = (n * count_events f t)%nat.
Proof.
  induction n as [|n IH]; [reflexivity|].
  cbn [replicate concat]. rewrite count_events_app, IH. lia.
Qed.

Lemma saves_concat_replicate n t :
  saves t = [] -> saves (concat (replicate n t)) = [].
Proof.
  intros E. induction n as [|n IH]; [reflexivity|].
  cbn [replicate concat]. now rewrite saves_app, E, IH.
Qed.

Lemma val_accuracies_concat_replicate n t :
  val_accuracies t = [] -> val_accuracies (concat (replicate n t)) = [].
Proof.
  intros E. induction n as [|n IH]; [reflexivity|].
  cbn [replicate concat]. now rewrite val_accuracies_app, E, IH.
Qed.

Lemma count_events_replicate f n (e : Event Weights) :
  count_events f (replicate n e) = if f e then n else 0%nat.
Proof.
  unfold count_events. induction n as [|n IH]; cbn.
  - now destruct (f e).
  - destruct (f e); cbn; now rewrite ?IH.
Qed.

Lemma saves_replicate_forward n : saves (replicate n (Forward (Weights := Weights))) = [].
Proof. induction n as [|n IH]; [reflexivity|]. exact IH. Qed.

Lemma saves_batch_events ph : saves (batch_events (Weights := Weights) ph) = [].
Proof. now destruct ph. Qed.

Lemma saves_pass_events ph n : saves (pass_events (Weights := Weights) ph n) = [].
Proof.
  unfold pass_events. rewrite !saves_app.
  now rewrite (saves_concat_replicate _ _ (saves_batch_events ph)).
Qed.

Lemma saves_phase_events ph n l a e :
  saves (phase_events (Weights := Weights) ph n l a e) = [].
Proof.
  unfold phase_events. rewrite !saves_app.
  now rewrite (saves_concat_replicate _ _ (saves_batch_events ph)).
Qed.

Lemma saves_test_events d n : saves (test_events (Weights := Weights) d n) = [].
Proof.
  unfold test_events. rewrite !saves_app. now rewrite saves_replicate_forward.
Qed.

Lemma saves_epoch_events (p : Params Image) e n1 n2 l1 a1 l2 a2 (snap : Weights) :
  saves (epoch_events p e n1 n2 l1 a1 l2 a2 snap) =
    if checkpoint_due p e then [(checkpoint_path p, snap)] else [].
Proof.
  unfold epoch_events.
  change (SchedulerStep :: ?t) with ([SchedulerStep (Weights := Weights)] ++ t).
  rewrite !saves_app, !saves_phase_events.
  now destruct (checkpoint_due p e).
Qed.

Lemma val_accuracies_test_events d n :
  val_accuracies (test_events (Weights := Weights) d n) = [].
Proof.
  unfold test_events. rewrite !val_accuracies_app.
  replace (val_accuracies (replicate n Forward)) with (@nil Q); [reflexivity|].
  induction n as [|n IH]; [reflexivity|exact IH].
Qed.

Lemma val_accuracies_phase_events ph n l a e :
  val_accuracies (phase_events (Weights := Weights) ph n l a e) =
    if is_train ph then [] else [a].
Proof.
  unfold phase_events. rewrite !val_accuracies_app.
  rewrite val_accuracies_concat_replicate by now destruct ph.
  now destruct ph.
Qed.

Lemma val_accuracies_epoch_events (p : Params Image) e n1 n2 l1 a1 l2 a2 (snap : Weights) :
  val_accuracies (epoch_events p e n1 n2 l1 a1 l2 a2 snap) = [a2].
Proof.
  unfold epoch_events.
  change (SchedulerStep :: ?t) with ([SchedulerStep (Weights := Weights)] ++ t).
  rewrite !val_accuracies_app, !val_accuracies_phase_events.
  now destruct (checkpoint_due p e).
Qed.

Lemma count_iter_end_phase_events ph ph' n l a e :
  count_events (is_iter_end ph) (phase_events (Weights := Weights) ph' n l a e) =
    if phase_eqb ph ph' then 1%nat else 0%nat.
Proof.
  unfold phase_events. rewrite !count_events_app, count_events_concat_replicate.
  replace (count_events (is_iter_end ph) (batch_events ph')) with 0%nat
    by now destruct ph'.
  rewrite Nat.mul_0_r. cbn. unfold count_events. cbn.
  now destruct (phase_eqb ph ph').
Qed.

Lemma count_iter_end_test_events ph d n :
  count_events (is_iter_end ph) (test_events (Weights := Weights) d n) =
    if phase_eqb ph Validation then 1%nat else 0%nat.
Proof.
  unfold test_events. rewrite !count_events_app, count_events_replicate. cbn.
  unfold count_events. cbn. now destruct (phase_eqb ph Validation).
Qed.

Lemma count_iter_end_epoch_events ph (p : Params Image) e n1 n2 l1 a1 l2 a2
    (snap : Weights) :
  count_events (is_iter_end ph) (epoch_events p e n1 n2 l1 a1 l2 a2 snap) = 1%nat.
Proof.
  unfold epoch_events.
  change (SchedulerStep :: ?t) with ([SchedulerStep (Weights := Weights)] ++ t).
  rewrite !count_events_app, !count_iter_end_phase_events.
  destruct (checkpoint_due p e), ph; reflexivity.
Qed.

(** *** Correct answers *)

Lemma count_correct_infer (wt : Weights) (b : list (Image * Label)) :
  count_correct (map (infer wt) (map fst b)) (map snd b) =
    Z.of_nat (correct_items wt b).
Proof.
  unfold count_correct, correct_items. f_equal.
  induction b as [|[img lbl] b IH]; [reflexivity|].
  cbn. unfold hit at 1. cbn.
  destruct (argmax (infer wt img) =? lbl); cbn; now rewrite IH.
Qed.

Lemma correct_items_app (wt : Weights) (xs ys : list (Image * Label)) :
  correct_items wt (xs ++ ys) = (correct_items wt xs + correct_items wt ys)%nat.
Proof. unfold correct_items. now rewrite List.filter_app, length_app. Qed.

Lemma correct_items_Permutation (wt : Weights) (xs ys : list (Image * Label)) :
  Permutation xs ys -> correct_items wt xs = correct_items wt ys.
Proof.
  unfold correct_items. induction 1 as [|x xs ys _ IH|x y xs|xs ys zs _ IH1 _ IH2]; cbn.
  - reflexivity.
  - destruct (argmax _ =? _); cbn; now rewrite IH.
  - do 2 destruct (argmax _ =? _); reflexivity.
  - now rewrite IH1.
Qed.

Lemma eval_total_correct (wt : Weights) (bs : list (list (Image * Label))) (acc : Q) :
  (eval_total wt bs acc == acc + inject_Z (Z.of_nat (correct_items wt (concat bs))))%Q.
Proof.
  unfold eval_total. revert acc. induction bs as [|b bs IH]; intros acc.
  - cbn. unfold correct_items. cbn. ring.
  - cbn [fold_left concat]. rewrite IH, count_correct_infer, correct_items_app.
    rewrite Nat2Z.inj_add, inject_Z_plus. ring.
Qed.

End Counting.

(** * The evaluator *)

Section Evaluator.
Context {Image Weights Grads Optim : Type}.
Context `{FW : Framework Image Weights Grads Optim}.
Implicit Types (w : World Weights Grads) (p : Params Image).

(** C5. When the batches of the validation loader enumerate each of the
    [N >= 1] items of its dataset exactly once and the model classifies
    exactly [k] of them correctly, [test_model] returns [k / N]. In
    particular, on one batch of four images labelled [0; 0; 1; 1], a
    model that always answers class 0 gets [1 / 2]. *)
Theorem test_model_accuracy p w :
  (forall N k : nat,
      Permutation (concat (batches (validation_loader p) (passes w)))
                  (dataset (validation_loader p)) ->
      length (dataset (validation_loader p)) = N ->
      correct_items (weights (model w)) (dataset (validation_loader p)) = k ->
      (0 < N)%nat ->
      exists acc,
        res (test_model p w) = Ok acc
        /\ (acc == inject_Z (Z.of_nat k) / inject_Z (Z.of_nat N))%Q)
  /\ (forall i1 i2 i3 i4 : Image,
      batches (validation_loader p) (passes w) = [[(i1, 0); (i2, 0); (i3, 1); (i4, 1)]] ->
      dataset (validation_loader p) = [(i1, 0); (i2, 0); (i3, 1); (i4, 1)] ->
      (forall image, argmax (infer (weights (model w)) image) = 0) ->
      exists acc, res (test_model p w) = Ok acc /\ (acc == 1 # 2)%Q).
Proof.
  assert (General : forall N k : nat,
      Permutation (concat (batches (validation_loader p) (passes w)))
                  (dataset (validation_loader p)) ->
      length (dataset (validation_loader p)) = N ->
      correct_items (weights (model w)) (dataset (validation_loader p)) = k ->
      (0 < N)%nat ->
      exists acc,
        res (test_model p w) = Ok acc
        /\ (acc == inject_Z (Z.of_nat k) / inject_Z (Z.of_nat N))%Q).
  { intros N k Hperm HN Hk Hpos.
    pose proof (test_model_run p w) as E. cbn zeta in E. rewrite E. cbn [res].
    unfold dataset_len. cbn [loader]. rewrite HN.
    destruct (Z.eqb_spec (Z.of_nat N) 0) as [Hz|_]; [lia|].
    eexists. split; [reflexivity|].
    rewrite eval_total_correct, (correct_items_Permutation _ _ _ Hperm), Hk.
    now rewrite Qplus_0_l. }
  split; [exact General|].
  intros i1 i2 i3 i4 Hb Hd Hm.
  destruct (General 4%nat 2%nat) as (acc & Hr & Ha).
  - rewrite Hb, Hd. cbn. reflexivity.
  - now rewrite Hd.
  - rewrite Hd. unfold correct_items. cbn. rewrite !Hm. reflexivity.
  - lia.
  - exists acc. split; [exact Hr|]. rewrite Ha. reflexivity.
Qed.

(** C7 (amended). [test_model] leaves the parameter values and the stored
    gradients as they were, issues no backward pass, no gradient
    clearing, no optimizer step and no file write; what it does change
    and leave changed is the model's mode, set to evaluation, and its
    device, set to [params['device']]. *)
Theorem test_model_frame p w :
  let o := test_model p w in
  model (final o) = {| weights := weights (model w);
                       grads := grads (model w);
                       training := false;
                       device_of := device p |}
  /\ files (final o) = files w
  /\ saves (trace o) = []
  /\ count_events is_backward (trace o) = 0%nat
  /\ count_events is_zero_grad (trace o) = 0%nat
  /\ count_events is_optimizer_step (trace o) = 0%nat.
Proof.
  cbn zeta. pose proof (test_model_run p w) as E. cbn zeta in E. rewrite E.
  cbn [final trace model files].
  split; [reflexivity|]. split; [reflexivity|].
  split; [apply saves_test_events|].
  unfold test_events.
  rewrite !count_events_app, !count_events_replicate. cbn. repeat split.
Qed.

(** C8. On a loader that yields the same batches at every pass, a second
    call of [test_model], made on the model as the first call left it,
    returns what the first call returned; and that is an accuracy unless
    the dataset is empty. *)
Theorem test_model_repeatable p w :
  (forall i j, batches (validation_loader p) i = batches (validation_loader p) j) ->
  res (test_model p (final (test_model p w))) = res (test_model p w)
  /\ ((exists acc, res (test_model p w) = Ok acc)
      \/ dataset_len p Validation = 0).
Proof.
  intros Hdet.
  pose proof (test_model_run p (final (test_model p w))) as E2.
  pose proof (test_model_run p w) as E1. cbn zeta in E1, E2.
  rewrite E1 in E2 at 2 3. cbn [final model weights passes] in E2.
  rewrite E2, E1. cbn [res].
  rewrite (Hdet (S (passes w)) (passes w)). split; [reflexivity|].
  destruct (Z.eqb_spec (dataset_len p Validation) 0); [now right|left; eauto].
Qed.

End Evaluator.

(** * The trainer *)

Section Run.
Context {Image Weights Grads Optim : Type}.
Context `{FW : Framework Image Weights Grads Optim}.
Implicit Types (w : World Weights Grads) (p : Params Image).
Implicit Types (loc : Locals Weights Optim).

(** If the run got through epoch [k], it got through the epochs before
    it, and epoch [k] did to the variables, the world and the trace what
    one successful iteration does. *)
Lemma train_prefix_step p w k loc' :
  res (train_prefix p (S k) w) = Ok loc' ->
  exists loc opt' n1 n2 l1 a1 l2 a2 m2,
    res (train_prefix p k w) = Ok loc
    /\ loc' = after_phase Validation opt' a2 (weights m2) loc
    /\ final (train_prefix p (S k) w) =
         {| model := m2;
            files := epoch_files p (Z.of_nat k) (best_model loc')
                       (files (final (train_prefix p k w)));
            passes := S (S (passes (final (train_prefix p k w)))) |}
    /\ trace (train_prefix p (S k) w) =
         trace (train_prefix p k w)
           ++ epoch_events p (Z.of_nat k) n1 n2 l1 a1 l2 a2 (best_model loc').
Proof.
  intros H. rewrite train_prefix_S in H |- *.
  destruct (res (train_prefix p k w)) as [loc|e] eqn:Ek.
  2:{ rewrite (bind_raise _ _ _ _ Ek) in H. discriminate. }
  rewrite (bind_ok _ _ _ _ Ek) in H |- *.
  rewrite res_prepend in H. rewrite final_prepend, trace_prepend.
  destruct (epoch_body_ok_inv _ _ _ _ _ H) as (Ht & Hv & Hc).
  destruct (epoch_body_ok p loc (Z.of_nat k) (final (train_prefix p k w)) Ht Hv Hc)
    as (opt' & l1 & a1 & l2 & a2 & m2 & E).
  cbn zeta in E. rewrite E in H |- *. cbn [res final trace] in H |- *.
  injection H as <-.
  exists loc, opt'. do 2 eexists. exists l1, a1, l2, a2, m2.
  repeat split; reflexivity.
Qed.

(** With non-empty datasets and a non-zero checkpoint interval, every
    epoch goes through. *)
Lemma train_prefix_total p w :
  dataset_len p Train <> 0 -> dataset_len p Validation <> 0 -> check_point p <> 0 ->
  forall k, exists loc, res (train_prefix p k w) = Ok loc.
Proof.
  intros Ht Hv Hc. induction k as [|k [loc IH]].
  - unfold train_prefix. cbn [seq map foldM]. rewrite bind_ret_r.
    pose proof (prologue_run p w) as E. cbn zeta in E. rewrite E. cbn [res].
    destruct (Z.eqb_spec (dataset_len p Validation) 0); [contradiction|eauto].
  - rewrite train_prefix_S, (bind_ok _ _ _ _ IH), res_prepend.
    destruct (epoch_body_ok p loc (Z.of_nat k) (final (train_prefix p k w)) Ht Hv Hc)
      as (opt' & l1 & a1 & l2 & a2 & m2 & E).
    cbn zeta in E. rewrite E. cbn [res]. eauto.
Qed.

Lemma train_prefix_0 p w : train_prefix p 0 w = prologue p w.
Proof. unfold train_prefix. cbn [seq map foldM]. apply bind_ret_r. Qed.

Lemma train_prefix_downward p w j k loc' :
  (j <= k)%nat -> res (train_prefix p k w) = Ok loc' ->
  exists loc, res (train_prefix p j w) = Ok loc.
Proof.
  intros Hjk. revert loc'. induction Hjk as [|k _ IH]; intros loc' H; [eauto|].
  destruct (train_prefix_step _ _ _ _ H) as (loc & _ & _ & _ & _ & _ & _ & _ & _ & Hk & _).
  eauto.
Qed.

(** The baseline is what [test_model] returns on the model as it was
    handed over, and the first snapshot holds its weights. *)
Lemma train_prefix_baseline p w loc :
  res (train_prefix p 0 w) = Ok loc ->
  res (test_model p w) = Ok (best_accuracy loc)
  /\ best_model loc = weights (model w)
  /\ final (train_prefix p 0 w) =
       {| model := {| weights := weights (model w); grads := grads (model w);
                      training := false; device_of := device p |};
          files := files w; passes := S (passes w) |}
  /\ trace (train_prefix p 0 w) =
       WriterOpen ("runs/" +:+ description p) :: ModelTo (device p)
         :: test_events (device p) (length (batches (validation_loader p) (passes w))).
Proof.
  rewrite train_prefix_0.
  pose proof (prologue_run p w) as E. cbn zeta in E. rewrite E. clear E.
  pose proof (test_model_run p w) as E. cbn zeta in E. rewrite E. clear E.
  cbn [res final trace].
  destruct (dataset_len p Validation =? 0); [discriminate|].
  intros [= <-]. cbn [best_accuracy best_model]. repeat split.
Qed.

(** Once an exception is raised the loop is left: later prefixes are
    the same outcome. *)
Lemma train_prefix_raise_stable p w k e :
  res (train_prefix p k w) = Raise e ->
  forall j, (k <= j)%nat -> train_prefix p j w = train_prefix p k w.
Proof.
  intros Hk j Hj. induction Hj as [|j _ IH]; [reflexivity|].
  assert (Hj' : res (train_prefix p j w) = Raise e) by now rewrite IH.
  rewrite train_prefix_S, (bind_raise _ _ _ _ Hj'), IH, <- Hk.
  symmetry. apply outcome_eta.
Qed.

(** The whole run, from the outcome of its epochs. *)
Lemma train_model_raise p w e :
  res (train_prefix p (Z.to_nat (num_epochs p)) w) = Raise e ->
  train_model p w =
    {| res := Raise e;
       final := final (train_prefix p (Z.to_nat (num_epochs p)) w);
       trace := trace (train_prefix p (Z.to_nat (num_epochs p)) w) |}.
Proof. intros H. rewrite train_model_prefix. apply (bind_raise _ _ _ _ H). Qed.

Lemma train_model_ok p w loc :
  res (train_prefix p (Z.to_nat (num_epochs p)) w) = Ok loc ->
  let o := train_prefix p (Z.to_nat (num_epochs p)) w in
  exists acc,
    train_model p w =
      {| res := Ok tt;
         final := {| model := {| weights := weights (model (final o));
                                 grads := grads (model (final o));
                                 training := false;
                                 device_of := device p |};
                     files := files (final o);
                     passes := S (passes (final o)) |};
         trace := trace o
                    ++ test_events (device p)
                         (length (batches (validation_loader p) (passes (final o))))
                    ++ [AddText "Final_Accuracy" acc 0; WriterClose] |}.
Proof.
  intros H o.
  assert (Hv : dataset_len p Validation <> 0).
  { destruct (train_prefix_downward p w 0 _ loc (Nat.le_0_l _) H) as [loc0 H0].
    rewrite train_prefix_0 in H0.
    pose proof (prologue_run p w) as E. cbn zeta in E. rewrite E in H0.
    cbn [res] in H0. intros Hz. rewrite Hz in H0. discriminate. }
  destruct (epilogue_run p (final o)) as [acc E]. exists acc.
  rewrite train_model_prefix, (bind_ok _ _ _ _ H). fold o.
  rewrite E. destruct (Z.eqb_spec (dataset_len p Validation) 0); [contradiction|].
  reflexivity.
Qed.

(** One epoch never lowers the best accuracy. *)
Lemma after_phase_best ph (opt : Optim) (a : Q) (wt : Weights) loc :
  (best_accuracy loc <= best_accuracy (after_phase ph opt a wt loc))%Q.
Proof.
  unfold after_phase, Qgtb.
  destruct (negb (is_train ph)); cbn [andb]; [|apply Qle_refl].
  destruct (Qle_bool a (best_accuracy loc)) eqn:E; cbn [negb best_accuracy].
  - apply Qle_refl.
  - apply Qlt_le_weak, Qnot_le_lt. intros Hle.
    apply Qle_bool_iff in Hle. congruence.
Qed.

Lemma Qgtb_true (a b : Q) : Qgtb a b = true <-> (b < a)%Q.
Proof.
  unfold Qgtb. rewrite negb_true_iff. split.
  - intros E. apply Qnot_le_lt. intros Hle. apply Qle_bool_iff in Hle. congruence.
  - intros Hlt. destruct (Qle_bool a b) eqn:E; [|reflexivity].
    apply Qle_bool_iff in E. exfalso. exact (Qlt_not_le _ _ Hlt E).
Qed.

Lemma Qgtb_false (a b : Q) : Qgtb a b = false <-> (a <= b)%Q.
Proof.
  unfold Qgtb. rewrite negb_false_iff. apply Qle_bool_iff.
Qed.

End Run.

Section Trainer.
Context {Image Weights Grads Optim : Type}.
Context `{FW : Framework Image Weights Grads Optim}.
Implicit Types (w : World Weights Grads) (p : Params Image).
Implicit Types (loc : Locals Weights Optim).

Ltac count_trace :=
  unfold epoch_events, phase_events, pass_events, test_events, batch_events;
  rewrite ?count_events_app, ?count_events_concat_replicate,
    ?count_events_replicate;
  unfold count_events; cbn; try lia.

Lemma train_prefix_0_ok p w :
  dataset_len p Validation <> 0 -> exists loc, res (train_prefix p 0 w) = Ok loc.
Proof.
  intros Hv. rewrite train_prefix_0.
  pose proof (prologue_run p w) as E. cbn zeta in E. rewrite E. cbn [res].
  destruct (Z.eqb_spec (dataset_len p Validation) 0); [contradiction|eauto].
Qed.

Lemma count_passes_prefix p w k loc :
  res (train_prefix p k w) = Ok loc ->
  count_events (is_iter_end Train) (trace (train_prefix p k w)) = k
  /\ count_events (is_iter_end Validation) (trace (train_prefix p k w)) = S k.
Proof.
  revert loc. induction k as [|k IH]; intros loc H.
  - destruct (train_prefix_baseline _ _ _ H) as (_ & _ & _ & ->).
    split; change (?a :: ?b :: ?t) with ([a; b] ++ t); count_trace.
  - destruct (train_prefix_step _ _ _ _ H)
      as (loc0 & opt' & n1 & n2 & l1 & a1 & l2 & a2 & m2 & Hk & _ & _ & ->).
    destruct (IH _ Hk) as [IHt IHv].
    rewrite !count_events_app, !count_iter_end_epoch_events, IHt, IHv. lia.
Qed.

(** C6 (amended). In the per-batch loop of [train_model] the gradients
    are cleared before the forward pass for every batch, in the
    validation phase as in the training phase; what is done in training
    mode only is the backward pass and the optimizer step. A phase over
    [n] batches therefore issues [n] gradient clearings, whichever phase
    it is. *)
Theorem zero_grad_every_batch p epoch loc ph acc b w :
  trace (train_batch ph acc b w) =
    ZeroGrad :: Forward :: (if is_train ph then [Backward; OptimizerStep] else [])
  /\ count_events is_zero_grad (trace (run_phase p epoch loc ph w)) =
       length (batches (loader p ph) (passes w)).
Proof.
  split.
  - destruct acc as [opt logs].
    destruct (train_batch_run ph opt logs b w) as (opt' & logs' & m' & E & _).
    now rewrite E.
  - destruct (run_phase_run p epoch loc ph w) as (opt' & l & a & m' & _ & _ & _ & E).
    rewrite E. destruct (dataset_len p ph =? 0); cbn [trace]; destruct ph; count_trace.
Qed.

(** C1 (amended). With an epoch count of 0, [train_model] evaluates the
    model on the validation loader before the (empty) loop and once more
    after it, writes no checkpoint file at all, performs no optimizer
    step and returns. *)
Theorem no_epoch_run p w :
  num_epochs p = 0 ->
  dataset_len p Validation <> 0 ->
  let o := train_model p w in
  let n0 := length (batches (validation_loader p) (passes w)) in
  let n1 := length (batches (validation_loader p) (S (passes w))) in
  res o = Ok tt
  /\ (exists acc,
        trace o = WriterOpen ("runs/" +:+ description p) :: ModelTo (device p)
                    :: test_events (device p) n0
                    ++ test_events (device p) n1
                    ++ [AddText "Final_Accuracy" acc 0; WriterClose])
  /\ saves (trace o) = []
  /\ files (final o) = files w
  /\ count_events is_optimizer_step (trace o) = 0%nat
  /\ weights (model (final o)) = weights (model w).
Proof.
  intros HE Hv. cbn zeta.
  destruct (train_prefix_0_ok p w Hv) as [loc H0].
  destruct (train_prefix_baseline _ _ _ H0) as (_ & _ & Hf & Ht).
  assert (HK : Z.to_nat (num_epochs p) = 0%nat) by now rewrite HE.
  rewrite <- HK in H0, Hf, Ht.
  destruct (train_model_ok p w loc H0) as [acc E]. cbn zeta in E.
  rewrite E. cbn [res final trace]. rewrite Hf, Ht. cbn [model files passes weights].
  split; [reflexivity|]. split; [exists acc; reflexivity|].
  split.
  { change (?a :: ?b :: ?t) with ([a; b] ++ t).
    now rewrite !saves_app, !saves_test_events. }
  split; [reflexivity|]. split; [|reflexivity].
  change (?a :: ?b :: ?t) with ([a; b] ++ t). count_trace.
Qed.

(** C9 (amended). A run over [E >= 0] epochs makes exactly [E] full
    passes over the training loader, and [E + 2] full passes over the
    validation loader: one per epoch, one for the baseline evaluation
    before the loop and one for the final evaluation after it. *)
Theorem passes_over_loaders p w :
  0 <= num_epochs p ->
  dataset_len p Train <> 0 ->
  dataset_len p Validation <> 0 ->
  check_point p <> 0 ->
  let o := train_model p w in
  res o = Ok tt
  /\ Z.of_nat (count_events (is_iter_end Train) (trace o)) = num_epochs p
  /\ Z.of_nat (count_events (is_iter_end Validation) (trace o)) = num_epochs p + 2.
Proof.
  intros HE Ht Hv Hc. cbn zeta.
  destruct (train_prefix_total p w Ht Hv Hc (Z.to_nat (num_epochs p))) as [loc H].
  destruct (train_model_ok p w loc H) as [acc E]. cbn zeta in E.
  destruct (count_passes_prefix _ _ _ _ H) as [Ct Cv].
  rewrite E. cbn [res trace]. split; [reflexivity|].
  rewrite !count_events_app, !count_iter_end_test_events, Ct, Cv.
  cbn [phase_eqb]. unfold count_events. cbn. lia.
Qed.

(** C10. With a checkpoint interval of 0 and at least one epoch the run
    ends in a [ZeroDivisionError] and no checkpoint file is written.
    Unless one of the datasets is empty (the division by its length then
    fails first), the error is the one of [epoch % 0], raised when the
    checkpoint condition of epoch 0 is evaluated: the scheduler has
    stepped once, both phases of epoch 0 are complete, and the last call
    made is the logging of the validation accuracy of epoch 0. *)
Theorem zero_interval_fails p w :
  check_point p = 0 ->
  1 <= num_epochs p ->
  let o := train_model p w in
  (exists k, res o = Raise (ZeroDivisionError k))
  /\ saves (trace o) = []
  /\ files (final o) = files w
  /\ (dataset_len p Train = 0
      \/ dataset_len p Validation = 0
      \/ (res o = Raise (ZeroDivisionError IntegerModulo)
          /\ count_events is_scheduler_step (trace o) = 1%nat
          /\ count_events (is_iter_end Train) (trace o) = 1%nat
          /\ count_events (is_iter_end Validation) (trace o) = 2%nat
          /\ exists t a, trace o = t ++ [AddScalars "Accuracy" Validation a 0])).
Proof.
  intros Hc HE. cbn zeta.
  set (K := Z.to_nat (num_epochs p)).
  assert (HK : (1 <= K)%nat) by (unfold K; lia).
  pose proof (prologue_run p w) as E0. cbn zeta in E0.
  rewrite <- train_prefix_0 in E0.
  destruct (Z.eqb_spec (dataset_len p Validation) 0) as [Hv|Hv].
  { (* the baseline evaluation fails *)
    assert (H0 : res (train_prefix p 0 w) = Raise (ZeroDivisionError FloatDivision))
      by now rewrite E0.
    assert (HKr : res (train_prefix p K w) = Raise (ZeroDivisionError FloatDivision)).
    { now rewrite (train_prefix_raise_stable _ _ _ _ H0 K (Nat.le_0_l K)). }
    rewrite (train_model_raise _ _ _ HKr). fold K.
    rewrite (train_prefix_raise_stable _ _ _ _ H0 K (Nat.le_0_l K)), E0.
    cbn [res final trace files].
    split; [eauto|]. split.
    { change (?a :: ?b :: ?t) with ([a; b] ++ t).
      now rewrite saves_app, saves_test_events. }
    split; [reflexivity|]. right. now left. }
  pose proof (train_prefix_S p 0 w) as E1.
  rewrite (bind_eq _ _ _ _ _ _ E0) in E1.
  match type of E1 with
  | _ = prepend _ (epoch_body p ?loc0 _ ?w1) =>
      destruct (epoch_body_run p loc0 (Z.of_nat 0) w1)
        as (opt' & l1 & a1 & l2 & a2 & m1 & m2 & Eb)
  end.
  cbn zeta in Eb. rewrite Eb in E1. clear Eb.
  rewrite Hc in E1. cbn [Z.eqb passes files] in E1.
  destruct (Z.eqb_spec (dataset_len p Train) 0) as [Ht|Ht].
  { (* the training phase of epoch 0 fails *)
    unfold prepend in E1. cbn [res final trace] in E1.
    assert (H1 : res (train_prefix p 1 w) = Raise (ZeroDivisionError FloatDivision))
      by now rewrite E1.
    assert (HKr : res (train_prefix p K w) = Raise (ZeroDivisionError FloatDivision)).
    { now rewrite (train_prefix_raise_stable _ _ _ _ H1 K HK). }
    rewrite (train_model_raise _ _ _ HKr). fold K.
    rewrite (train_prefix_raise_stable _ _ _ _ H1 K HK), E1.
    cbn [res final trace files].
    split; [eauto|]. split.
    { change (?a :: ?b :: ?t) with ([a; b] ++ t).
      change (SchedulerStep :: ?t) with ([SchedulerStep (Weights := Weights)] ++ t).
      now rewrite !saves_app, saves_test_events, saves_pass_events. }
    split; [reflexivity|]. now left. }
  destruct (Z.eqb_spec (dataset_len p Validation) 0) as [|_]; [contradiction|].
  unfold prepend in E1. cbn [res final trace] in E1.
  assert (H1 : res (train_prefix p 1 w) = Raise (ZeroDivisionError IntegerModulo))
    by now rewrite E1.
  assert (HKr : res (train_prefix p K w) = Raise (ZeroDivisionError IntegerModulo)).
  { now rewrite (train_prefix_raise_stable _ _ _ _ H1 K HK). }
  rewrite (train_model_raise _ _ _ HKr). fold K.
  rewrite (train_prefix_raise_stable _ _ _ _ H1 K HK), E1.
  cbn [res final trace files].
  split; [eauto|]. split.
  { change (?a :: ?b :: ?t) with ([a; b] ++ t).
    change (SchedulerStep :: ?t) with ([SchedulerStep (Weights := Weights)] ++ t).
    now rewrite !saves_app, saves_test_events, !saves_phase_events. }
  split; [reflexivity|]. right. right.
  split; [reflexivity|].
  change (?a :: ?b :: test_events ?d ?n) with ([a; b] ++ test_events d n).
  change (SchedulerStep :: ?t) with ([SchedulerStep (Weights := Weights)] ++ t).
  split; [count_trace|]. split; [count_trace|]. split; [count_trace|].
  unfold phase_events at 2.
  eexists. exists a2.
  rewrite !app_assoc.
  change [IterEnd Validation; AddScalars "Loss" Validation l2 (Z.of_nat 0);
          AddScalars "Accuracy" Validation a2 (Z.of_nat 0)]
    with ([IterEnd Validation; AddScalars (Weights := Weights) "Loss" Validation l2 0]
            ++ [AddScalars "Accuracy" Validation a2 0]).
  rewrite !app_assoc. reflexivity.
Qed.

(** Every write of the loop goes to the one checkpoint path. *)
Lemma files_prefix p w k loc :
  res (train_prefix p k w) = Ok loc ->
  files (final (train_prefix p k w)) = files w
  \/ exists snap,
       files (final (train_prefix p k w)) = <[checkpoint_path p := snap]> (files w).
Proof.
  revert loc. induction k as [|k IH]; intros loc H.
  - destruct (train_prefix_baseline _ _ _ H) as (_ & _ & -> & _). now left.
  - destruct (train_prefix_step _ _ _ _ H)
      as (loc0 & opt' & n1 & n2 & l1 & a1 & l2 & a2 & m2 & Hk & _ & -> & _).
    cbn [files]. unfold epoch_files.
    destruct (checkpoint_due p (Z.of_nat k)); [|eauto].
    right. exists (best_model loc).
    destruct (IH _ Hk) as [->|[snap ->]]; [reflexivity|].
    apply insert_insert_eq.
  Qed.

(** The writes of the first [k] epochs, one per epoch whose checkpoint
    is due, each of the best snapshot as that epoch left it. *)
Lemma saves_prefix p w k loc :
  res (train_prefix p k w) = Ok loc ->
  Forall2
    (fun e sv => exists loc_e,
         res (train_prefix p (S (Z.to_nat e)) w) = Ok loc_e
         /\ sv = (checkpoint_path p, best_model loc_e))
    (List.filter (checkpoint_due p) (map Z.of_nat (seq 0 k)))
    (saves (trace (train_prefix p k w))).
Proof.
  revert loc. induction k as [|k IH]; intros loc H.
  - destruct (train_prefix_baseline _ _ _ H) as (_ & _ & _ & ->).
    change (?a :: ?b :: ?t) with ([a; b] ++ t).
    rewrite saves_app, saves_test_events. constructor.
  - destruct (train_prefix_step _ _ _ _ H)
      as (loc0 & opt' & n1 & n2 & l1 & a1 & l2 & a2 & m2 & Hk & _ & _ & ->).
    rewrite seq_S, map_app, List.filter_app, saves_app, saves_epoch_events.
    apply Forall2_app; [exact (IH _ Hk)|].
    cbn [map List.filter Nat.add].
    destruct (checkpoint_due p (Z.of_nat k)); constructor; [|constructor].
    exists loc. now rewrite Nat2Z.id.
Qed.

(** The writes of one epoch. *)
Lemma saves_epoch p w k loc' :
  res (train_prefix p (S k) w) = Ok loc' ->
  saves (trace (train_prefix p (S k) w)) =
    saves (trace (train_prefix p k w))
      ++ (if checkpoint_due p (Z.of_nat k)
          then [(checkpoint_path p, best_model loc')] else []).
Proof.
  intros H.
  destruct (train_prefix_step _ _ _ _ H)
    as (loc0 & opt' & n1 & n2 & l1 & a1 & l2 & a2 & m2 & _ & _ & _ & ->).
  now rewrite saves_app, saves_epoch_events.
Qed.

(** C4. In a run over [E >= 1] epochs with a checkpoint interval
    [c >= 1], [torch.save] is called once for each epoch index [e] of
    [0 .. E-1] with [e mod c = 0] or [e = E-1], in order, and for no
    other: epoch [e] adds one call when the condition holds and none when
    it does not. Each call writes the best snapshot as epoch [e] left it
    to [state_dict_path + description + '.pt'], so that at the end that
    one file holds the final best snapshot and no other file was
    touched. *)
Theorem checkpoint_schedule p w :
  1 <= num_epochs p ->
  1 <= check_point p ->
  dataset_len p Train <> 0 ->
  dataset_len p Validation <> 0 ->
  let o := train_model p w in
  res o = Ok tt
  /\ Forall2
       (fun e sv => exists loc_e,
            res (train_prefix p (S (Z.to_nat e)) w) = Ok loc_e
            /\ sv = (state_dict_path p +:+ description p +:+ ".pt", best_model loc_e))
       (List.filter (fun e => (e mod check_point p =? 0) || (e =? num_epochs p - 1))
          (range (num_epochs p)))
       (saves (trace o))
  /\ (forall k, (k < Z.to_nat (num_epochs p))%nat ->
      exists loc_k,
        res (train_prefix p (S k) w) = Ok loc_k
        /\ saves (trace (train_prefix p (S k) w)) =
             saves (trace (train_prefix p k w))
               ++ (if (Z.of_nat k mod check_point p =? 0)
                      || (Z.of_nat k =? num_epochs p - 1)
                   then [(state_dict_path p +:+ description p +:+ ".pt",
                          best_model loc_k)]
                   else []))
  /\ exists loc_E,
       res (train_prefix p (Z.to_nat (num_epochs p)) w) = Ok loc_E
       /\ files (final o) =
            <[state_dict_path p +:+ description p +:+ ".pt" := best_model loc_E]> (files w).
Proof.
  intros HE Hc Ht Hv. cbn zeta.
  assert (Hc0 : check_point p <> 0) by lia.
  destruct (train_prefix_total p w Ht Hv Hc0 (Z.to_nat (num_epochs p))) as [loc H].
  destruct (train_model_ok p w loc H) as [acc E]. cbn zeta in E.
  rewrite E. cbn [res final trace files]. split; [reflexivity|]. split; [|split].
  - rewrite !saves_app, saves_test_events. cbn [saves omap app]. rewrite !app_nil_r.
    exact (saves_prefix _ _ _ _ H).
  - intros k _.
    destruct (train_prefix_total p w Ht Hv Hc0 (S k)) as [loc_k Hk].
    exists loc_k. split; [exact Hk|]. exact (saves_epoch _ _ _ _ Hk).
  - exists loc. split; [exact H|].
    destruct (Z.to_nat (num_epochs p)) as [|k] eqn:EK; [lia|].
    destruct (train_prefix_step _ _ _ _ H)
      as (loc0 & opt' & n1 & n2 & l1 & a1 & l2 & a2 & m2 & Hk & _ & -> & _).
    cbn [files]. unfold epoch_files, checkpoint_due.
    replace (Z.of_nat k =? num_epochs p - 1) with true
      by (symmetry; apply Z.eqb_eq; lia).
    rewrite orb_true_r.
    destruct (files_prefix _ _ _ _ Hk) as [->|[snap ->]]; [reflexivity|].
    apply insert_insert_eq.
Qed.

(** What one more epoch does to the best accuracy and the snapshot. *)
Lemma snapshot_step p w k loc loc' :
  res (train_prefix p k w) = Ok loc ->
  res (train_prefix p (S k) w) = Ok loc' ->
  exists a,
    val_accuracies (trace (train_prefix p (S k) w)) =
      val_accuracies (trace (train_prefix p k w)) ++ [a]
    /\ ((best_accuracy loc < a)%Q
        /\ best_accuracy loc' = a
        /\ best_model loc' = weights (model (final (train_prefix p (S k) w)))
        \/ (a <= best_accuracy loc)%Q
           /\ best_accuracy loc' = best_accuracy loc
           /\ best_model loc' = best_model loc).
Proof.
  intros Hk HS.
  destruct (train_prefix_step _ _ _ _ HS)
    as (loc0 & opt' & n1 & n2 & l1 & a1 & l2 & a2 & m2 & Hk' & Hloc & Hf & Ht).
  assert (loc0 = loc) as -> by congruence.
  exists a2. split.
  - now rewrite Ht, val_accuracies_app, val_accuracies_epoch_events.
  - rewrite Hf. cbn [model]. rewrite Hloc. unfold after_phase. cbn [is_train negb andb].
    destruct (Qgtb a2 (best_accuracy loc)) eqn:Eg; cbn [best_accuracy best_model].
    + left. apply Qgtb_true in Eg. auto.
    + right. apply Qgtb_false in Eg. auto.
Qed.

(** The snapshot is the weights the model had at the first of the
    measurements made so far that reach their maximum. *)
Lemma snapshot_invariant p w k loc a0 :
  res (test_model p w) = Ok a0 ->
  res (train_prefix p k w) = Ok loc ->
  let ms := a0 :: val_accuracies (trace (train_prefix p k w)) in
  length ms = S k
  /\ exists j,
       (j <= k)%nat
       /\ ms !! j = Some (best_accuracy loc)
       /\ best_model loc = weights (model (final (train_prefix p j w)))
       /\ (forall i a, ms !! i = Some a -> (a <= best_accuracy loc)%Q)
       /\ (forall i a, (i < j)%nat -> ms !! i = Some a -> (a < best_accuracy loc)%Q).
Proof.
  intros Ha0. revert loc. induction k as [|k IH]; intros loc H.
  - destruct (train_prefix_baseline _ _ _ H) as (Hb & Hm & Hf & Ht).
    assert (a0 = best_accuracy loc) as -> by congruence.
    rewrite Ht. cbn zeta.
    replace (val_accuracies _) with (@nil Q).
    2:{ change (?a :: ?b :: ?t) with ([a; b] ++ t).
        now rewrite val_accuracies_app, val_accuracies_test_events. }
    split; [reflexivity|]. exists 0%nat.
    split; [lia|]. split; [reflexivity|].
    split; [now rewrite Hf|]. split.
    + intros [|i] a; [intros [= <-]; apply Qle_refl|discriminate].
    + intros i a Hi. lia.
  - destruct (train_prefix_downward p w k (S k) loc (Nat.le_succ_diag_r k) H)
      as [loc0 Hk].
    destruct (IH _ Hk) as (Hlen & j & Hj & Hbest & Hsnap & Hmax & Hfirst).
    destruct (snapshot_step _ _ _ _ _ Hk H) as (a & Hva & Hcase).
    cbn zeta in *. rewrite Hva.
    set (ms := a0 :: val_accuracies (trace (train_prefix p k w))) in *.
    change (a0 :: val_accuracies (trace (train_prefix p k w)) ++ [a])
      with (ms ++ [a]).
    split; [rewrite length_app, Hlen; cbn; lia|].
    assert (Hsplit : forall i x, (ms ++ [a]) !! i = Some x ->
               ms !! i = Some x \/ (i = S k /\ x = a)).
    { intros i x Hi. destruct (Nat.lt_ge_cases i (length ms)) as [Hlt|Hge].
      - left. now rewrite lookup_app_l in Hi.
      - right. rewrite lookup_app_r in Hi by exact Hge.
        destruct (i - length ms)%nat as [|d] eqn:Ed; [|discriminate].
        injection Hi as <-. split; [lia|reflexivity]. }
    destruct Hcase as [(Hlt & Hb' & Hm')|(Hle & Hb' & Hm')].
    + exists (S k). split; [lia|]. split.
      { rewrite lookup_app_r by lia. rewrite Hlen, Nat.sub_diag, Hb'. reflexivity. }
      split; [exact Hm'|]. rewrite Hb'. split.
      * intros i x Hi. destruct (Hsplit _ _ Hi) as [Hin|[_ ->]]; [|apply Qle_refl].
        apply Qlt_le_weak. eapply Qle_lt_trans; [exact (Hmax _ _ Hin)|exact Hlt].
      * intros i x Hi Hx. destruct (Hsplit _ _ Hx) as [Hin|[-> _]]; [|lia].
        eapply Qle_lt_trans; [exact (Hmax _ _ Hin)|exact Hlt].
    + exists j. split; [lia|]. rewrite Hb', Hm'. split.
      { rewrite lookup_app_l by lia. exact Hbest. }
      split; [exact Hsnap|]. split.
      * intros i x Hi. destruct (Hsplit _ _ Hi) as [Hin|[_ ->]]; [|exact Hle].
        exact (Hmax _ _ Hin).
      * intros i x Hi Hx. destruct (Hsplit _ _ Hx) as [Hin|[-> _]]; [|lia].
        exact (Hfirst _ _ Hi Hin).
Qed.

(** C2. The best accuracy starts as the value [test_model] returns
    before the loop and, read after each epoch, never decreases: for any
    two points [j <= k] of a run (0 is the baseline, [e + 1] the end of
    epoch [e]; [train_prefix p k] is [train_model p] cut at point [k],
    see [train_model_prefix]) the value at [k] is at least the value at
    [j]. Every such point is reached unless a dataset is empty or the
    checkpoint interval is zero. *)
Theorem best_accuracy_monotone p w j k loc_j loc_k :
  (j <= k)%nat ->
  res (train_prefix p j w) = Ok loc_j ->
  res (train_prefix p k w) = Ok loc_k ->
  (best_accuracy loc_j <= best_accuracy loc_k)%Q
  /\ (exists loc_0,
        res (train_prefix p 0 w) = Ok loc_0
        /\ res (test_model p w) = Ok (best_accuracy loc_0)
        /\ (best_accuracy loc_0 <= best_accuracy loc_j)%Q)
  /\ (dataset_len p Train = 0 \/ dataset_len p Validation = 0 \/ check_point p = 0
      \/ forall n, exists loc, res (train_prefix p n w) = Ok loc).
Proof.
  assert (Mono : forall j k loc_j loc_k, (j <= k)%nat ->
             res (train_prefix p j w) = Ok loc_j ->
             res (train_prefix p k w) = Ok loc_k ->
             (best_accuracy loc_j <= best_accuracy loc_k)%Q).
  { clear. intros j k loc_j loc_k Hjk Hj. revert loc_k.
    induction Hjk as [|k Hjk IH]; intros loc_k Hk.
    - assert (loc_k = loc_j) as -> by congruence. apply Qle_refl.
    - destruct (train_prefix_step _ _ _ _ Hk)
        as (loc0 & opt' & n1 & n2 & l1 & a1 & l2 & a2 & m2 & Hk' & -> & _).
      eapply Qle_trans; [exact (IH _ Hk')|apply after_phase_best]. }
  intros Hjk Hj Hk. split; [exact (Mono _ _ _ _ Hjk Hj Hk)|]. split.
  - destruct (train_prefix_downward p w 0 j loc_j (Nat.le_0_l j) Hj) as [loc_0 H0].
    exists loc_0. split; [exact H0|]. split.
    + apply (train_prefix_baseline _ _ _ H0).
    + exact (Mono _ _ _ _ (Nat.le_0_l j) H0 Hj).
  - destruct (Z.eq_dec (dataset_len p Train) 0) as [|Ht]; [now left|].
    destruct (Z.eq_dec (dataset_len p Validation) 0) as [|Hv]; [now right; left|].
    destruct (Z.eq_dec (check_point p) 0) as [|Hc]; [now right; right; left|].
    right; right; right. exact (train_prefix_total p w Ht Hv Hc).
Qed.

(** C3. After every validation measurement of a run the best
    snapshot is the copy of the weights the model had at the measurement
    that set the highest accuracy so far, the baseline included (at the
    first such measurement when several tie), and the best accuracy is
    that highest value. The measurements are the value [test_model]
    returns before the loop and the validation accuracies sent to the
    metrics writer, one per epoch. One more epoch replaces the snapshot, by the
    weights of the model at its validation measurement, exactly when
    that measurement is strictly above the best so far; otherwise
    snapshot and best accuracy stay as they were. *)
Theorem best_snapshot_tracks_maximum p w k loc :
  res (train_prefix p k w) = Ok loc ->
  exists a0,
    res (test_model p w) = Ok a0
    /\ (let ms := a0 :: val_accuracies (trace (train_prefix p k w)) in
        length ms = S k
        /\ exists j,
             (j <= k)%nat
             /\ ms !! j = Some (best_accuracy loc)
             /\ best_model loc = weights (model (final (train_prefix p j w)))
             /\ (forall i a, ms !! i = Some a -> (a <= best_accuracy loc)%Q)
             /\ (forall i a, (i < j)%nat -> ms !! i = Some a ->
                              (a < best_accuracy loc)%Q))
    /\ (forall loc',
          res (train_prefix p (S k) w) = Ok loc' ->
          exists a,
            val_accuracies (trace (train_prefix p (S k) w)) =
              val_accuracies (trace (train_prefix p k w)) ++ [a]
            /\ ((best_accuracy loc < a)%Q
                /\ best_accuracy loc' = a
                /\ best_model loc' = weights (model (final (train_prefix p (S k) w)))
                \/ (a <= best_accuracy loc)%Q
                   /\ best_accuracy loc' = best_accuracy loc
                   /\ best_model loc' = best_model loc)).
Proof.
  intros H.
  destruct (train_prefix_downward p w 0 k loc (Nat.le_0_l k) H) as [loc_0 H0].
  destruct (train_prefix_baseline _ _ _ H0) as (Ha0 & _).
  exists (best_accuracy loc_0). split; [exact Ha0|]. split.
  - exact (snapshot_invariant p w k loc _ Ha0 H).
  - intros loc' HS. exact (snapshot_step _ _ _ _ _ H HS).
Qed.

End Trainer.

(** * The properties on a concrete run *)

(** C1: with an epoch count of 0 no checkpoint is written, where the
    specification has exactly one. *)
Lemma zero_epochs_write_no_checkpoint :
  num_epochs (Toy.toy_params 0 1) = 0
  /\ res (train_model (FW := Toy.toy) (Toy.toy_params 0 1) Toy.world0) = Ok tt
  /\ length (saves (trace (train_model (FW := Toy.toy) (Toy.toy_params 0 1) Toy.world0)))
       <> 1%nat
  /\ files (final (train_model (FW := Toy.toy) (Toy.toy_params 0 1) Toy.world0)) = ∅.
Proof.
  split; [reflexivity|]. split; [vm_compute; reflexivity|].
  split; [vm_compute; discriminate|vm_compute; reflexivity].
Qed.

Lemma no_epoch_run_witness :
  res (train_model (FW := Toy.toy) (Toy.toy_params 0 1) Toy.world0) = Ok tt
  /\ saves (trace (train_model (FW := Toy.toy) (Toy.toy_params 0 1) Toy.world0)) = []
  /\ count_events is_optimizer_step
       (trace (train_model (FW := Toy.toy) (Toy.toy_params 0 1) Toy.world0)) = 0%nat.
Proof.
  destruct (no_epoch_run (FW := Toy.toy) (Toy.toy_params 0 1) Toy.world0)
    as (Hr & _ & Hs & _ & Ho & _).
  - reflexivity.
  - vm_compute. discriminate.
  - exact (conj Hr (conj Hs Ho)).
Defined.

(** C6: the validation phase of an epoch clears the gradients, once per
    batch, where the specification has no clearing at all. *)
Lemma validation_phase_clears_gradients :
  is_train Validation = false
  /\ count_events is_zero_grad
       (trace (run_phase (FW := Toy.toy) (Toy.toy_params 1 1) 0 Toy.fresh_locals
                 Validation Toy.world0)) <> 0%nat.
Proof. split; [reflexivity|]. vm_compute. discriminate. Qed.

(** C7: a model handed over in training mode comes back in evaluation
    mode, so its state after the call is not its state before. *)
Lemma test_model_changes_mode :
  model (final (test_model (FW := Toy.toy) (Toy.toy_params 0 1) Toy.world0))
    <> model Toy.world0.
Proof. vm_compute. intros H. discriminate H. Qed.

(** C9: three epochs make five full passes over the validation loader,
    where the specification has three. *)
Lemma validation_loader_passes_exceed_epochs :
  res (train_model (FW := Toy.toy) (Toy.toy_params 3 2) Toy.world0) = Ok tt
  /\ count_events (is_iter_end Train)
       (trace (train_model (FW := Toy.toy) (Toy.toy_params 3 2) Toy.world0)) = 3%nat
  /\ count_events (is_iter_end Validation)
       (trace (train_model (FW := Toy.toy) (Toy.toy_params 3 2) Toy.world0)) <> 3%nat.
Proof.
  split; [vm_compute; reflexivity|]. split; [vm_compute; reflexivity|].
  vm_compute. discriminate.
Qed.

Lemma passes_over_loaders_witness :
  Z.of_nat (count_events (is_iter_end Train)
              (trace (train_model (FW := Toy.toy) (Toy.toy_params 3 2) Toy.world0))) = 3
  /\ Z.of_nat (count_events (is_iter_end Validation)
                 (trace (train_model (FW := Toy.toy) (Toy.toy_params 3 2) Toy.world0))) = 3 + 2.
Proof.
  destruct (passes_over_loaders (FW := Toy.toy) (Toy.toy_params 3 2) Toy.world0)
    as (_ & Ht & Hv).
  - vm_compute. discriminate.
  - vm_compute. discriminate.
  - vm_compute. discriminate.
  - vm_compute. discriminate.
  - exact (conj Ht Hv).
Defined.

Lemma test_model_accuracy_witness :
  (exists acc,
      res (test_model (FW := Toy.toy) (Toy.toy_params 0 1) Toy.world0) = Ok acc
      /\ (acc == inject_Z (Z.of_nat 0) / inject_Z (Z.of_nat 4))%Q)
  /\ (exists acc,
        res (test_model (FW := Toy.always0) Toy.scenario_params Toy.world0) = Ok acc
        /\ (acc == 1 # 2)%Q).
Proof.
  split.
  - apply (proj1 (test_model_accuracy (FW := Toy.toy) (Toy.toy_params 0 1) Toy.world0)
             4%nat 0%nat).
    + vm_compute. reflexivity.
    + reflexivity.
    + reflexivity.
    + lia.
  - apply (proj2 (test_model_accuracy (FW := Toy.always0) Toy.scenario_params Toy.world0)
             0 0 0 0).
    + reflexivity.
    + reflexivity.
    + intros image. reflexivity.
Defined.

Lemma test_model_repeatable_witness :
  res (test_model (FW := Toy.toy) (Toy.toy_params 0 1)
         (final (test_model (FW := Toy.toy) (Toy.toy_params 0 1) Toy.world0)))
  = res (test_model (FW := Toy.toy) (Toy.toy_params 0 1) Toy.world0).
Proof.
  apply (test_model_repeatable (FW := Toy.toy) (Toy.toy_params 0 1) Toy.world0).
  intros i j. reflexivity.
Defined.

Lemma zero_interval_fails_witness :
  (exists k, res (train_model (FW := Toy.toy) (Toy.toy_params 3 0) Toy.world0)
             = Raise (ZeroDivisionError k))
  /\ saves (trace (train_model (FW := Toy.toy) (Toy.toy_params 3 0) Toy.world0)) = [].
Proof.
  destruct (zero_interval_fails (FW := Toy.toy) (Toy.toy_params 3 0) Toy.world0)
    as (Hr & Hs & _).
  - reflexivity.
  - vm_compute. discriminate.
  - exact (conj Hr Hs).
Defined.

Lemma checkpoint_schedule_witness :
  res (train_model (FW := Toy.toy) (Toy.toy_params 3 2) Toy.world0) = Ok tt
  /\ exists loc_E,
       res (train_prefix (FW := Toy.toy) (Toy.toy_params 3 2) 3 Toy.world0) = Ok loc_E
       /\ files (final (train_model (FW := Toy.toy) (Toy.toy_params 3 2) Toy.world0)) =
            <["trained_models/toy.pt"%string := best_model loc_E]> ∅.
Proof.
  destruct (checkpoint_schedule (FW := Toy.toy) (Toy.toy_params 3 2) Toy.world0)
    as (Hr & _ & _ & Hf).
  - vm_compute. discriminate.
  - vm_compute. discriminate.
  - vm_compute. discriminate.
  - vm_compute. discriminate.
  - exact (conj Hr Hf).
Defined.

Lemma best_accuracy_monotone_witness :
  exists loc_1 loc_3,
    res (train_prefix (FW := Toy.toy) (Toy.toy_params 3 2) 1 Toy.world0) = Ok loc_1
    /\ res (train_prefix (FW := Toy.toy) (Toy.toy_params 3 2) 3 Toy.world0) = Ok loc_3
    /\ (best_accuracy loc_1 <= best_accuracy loc_3)%Q.
Proof.
  eexists. eexists.
  split; [vm_compute; reflexivity|]. split; [vm_compute; reflexivity|].
  refine (proj1 (best_accuracy_monotone (FW := Toy.toy) (Toy.toy_params 3 2) Toy.world0
                   1 3 _ _ _ _ _)).
  - lia.
  - vm_compute. reflexivity.
  - vm_compute. reflexivity.
Defined.

Lemma best_snapshot_tracks_maximum_witness :
  exists loc_2 a0,
    res (train_prefix (FW := Toy.toy) (Toy.toy_params 3 2) 2 Toy.world0) = Ok loc_2
    /\ res (test_model (FW := Toy.toy) (Toy.toy_params 3 2) Toy.world0) = Ok a0
    /\ length (a0 :: val_accuracies
                       (trace (train_prefix (FW := Toy.toy) (Toy.toy_params 3 2) 2
                                 Toy.world0))) = 3%nat.
Proof.
  eexists.
  destruct (best_snapshot_tracks_maximum (FW := Toy.toy) (Toy.toy_params 3 2)
              Toy.world0 2 _ ltac:(vm_compute; reflexivity))
    as (a0 & Ha & (Hlen & _) & _).
  exists a0. split; [vm_compute; reflexivity|]. split; [exact Ha|exact Hlen].
Defined.


(** * More of the notebook *)

(** ** The validation phase, exactly *)

Section ValidationPhase.
Context {Image Weights Grads Optim : Type}.
Context `{FW : Framework Image Weights Grads Optim}.
Implicit Types (w : World Weights Grads) (p : Params Image).
Implicit Types (loc : Locals Weights Optim) (b : Batch (Image := Image)).

Lemma do_forward_eval (image : list Image) w :
  training (model w) = false ->
  do_forward image w =
    {| res := Ok (map (infer (weights (model w))) image); final := w;
       trace := [Forward] |}.
Proof.
  intros Hm. destruct w as [[wt g tr d] fs n]. cbn in Hm. subst tr.
  unfold do_forward. erewrite bind_eq by reflexivity. cbn [model training weights].
  erewrite bind_eq by reflexivity. reflexivity.
Qed.

(** One validation batch: the gradients are cleared, nothing else of the
    model moves, the optimizer is not touched. *)
Lemma val_batch_run (opt : Optim) logs b w :
  training (model w) = false ->
  exists loss,
    train_batch Validation (opt, logs) b w =
      {| res := Ok (opt, {| Loss := loss;
                            Accuracy := (Accuracy logs
                                         + inject_Z (count_correct
                                                       (map (infer (weights (model w)))
                                                          (map fst b))
                                                       (map snd b)))%Q |});
         final := {| model := {| weights := weights (model w);
                                 grads := zero_grad (grads (model w));
                                 training := false;
                                 device_of := device_of (model w) |};
                     files := files w; passes := passes w |};
         trace := batch_events Validation |}.
Proof.
  intros Hm. destruct w as [[wt g tr d] fs n]. cbn in Hm. subst tr.
  eexists. unfold train_batch.
  erewrite bind_eq by apply do_zero_grad_run.
  erewrite bind_eq by reflexivity.
  erewrite bind_eq by (apply do_forward_eval; reflexivity).
  reflexivity.
Qed.

Lemma val_batches_run bs (opt : Optim) logs w :
  training (model w) = false ->
  exists loss,
    foldM (train_batch Validation) bs (opt, logs) w =
      {| res := Ok (opt, {| Loss := loss;
                            Accuracy := eval_total (weights (model w)) bs (Accuracy logs) |});
         final := {| model := {| weights := weights (model w);
                                 grads := Nat.iter (length bs) zero_grad (grads (model w));
                                 training := false;
                                 device_of := device_of (model w) |};
                     files := files w; passes := passes w |};
         trace := concat (replicate (length bs) (batch_events Validation)) |}.
Proof.
  revert logs w. induction bs as [|b bs IH]; intros logs w Hm.
  - exists (Loss logs). destruct w as [[wt g tr d] fs n], logs. cbn in Hm. now subst tr.
  - destruct (val_batch_run opt logs b w Hm) as [l1 E1].
    match type of E1 with
    | _ = {| res := Ok (_, ?logs1); final := ?w1; trace := _ |} =>
        destruct (IH logs1 w1 eq_refl) as [l2 E2]
    end.
    exists l2. cbn [foldM]. erewrite bind_eq by exact E1.
    rewrite E2. cbn [prepend model weights grads device_of files passes Accuracy length].
    rewrite Nat.iter_succ_r. reflexivity.
Qed.

(** The validation phase of an epoch, whole: the accuracy it measures is
    the one [test_model] computes on the same weights and batches. *)
Lemma run_phase_val_run p epoch loc w :
  let bs := batches (validation_loader p) (passes w) in
  let acc := (eval_total (weights (model w)) bs 0
              / inject_Z (dataset_len p Validation))%Q in
  let w' := {| model := {| weights := weights (model w);
                            grads := Nat.iter (length bs) zero_grad (grads (model w));
                            training := false;
                            device_of := device_of (model w) |};
               files := files w; passes := S (passes w) |} in
  exists loss,
    run_phase p epoch loc Validation w =
      if dataset_len p Validation =? 0 then
        {| res := Raise (ZeroDivisionError FloatDivision); final := w';
           trace := pass_events Validation (length bs) |}
      else
        {| res := Ok (after_phase Validation (optimizer loc) acc (weights (model w)) loc);
           final := w';
           trace := phase_events Validation (length bs) loss acc epoch |}.
Proof.
  intros bs acc w'.
  destruct (val_batches_run bs (optimizer loc) {| Loss := 0; Accuracy := 0 |}
              {| model := {| weights := weights (model w); grads := grads (model w);
                             training := false; device_of := device_of (model w) |};
                 files := files w; passes := S (passes w) |} eq_refl) as [l E].
  cbn [model weights grads device_of files passes Accuracy] in E.
  exists (l / inject_Z (dataset_len p Validation))%Q.
  unfold run_phase. cbn [is_train].
  erewrite bind_eq by apply set_training_run.
  erewrite bind_eq by reflexivity.
  cbn [final loader]. fold bs. erewrite bind_eq by exact E.
  cbn beta iota. erewrite bind_eq by reflexivity.
  unfold py_truediv. cbn [Loss Accuracy].
  destruct (dataset_len p Validation =? 0).
  - reflexivity.
  - do 4 (erewrite bind_eq by reflexivity).
    unfold phase_events, after_phase. cbn [is_train negb andb]. fold acc.
    destruct (Qgtb acc (best_accuracy loc)).
    + erewrite bind_eq by reflexivity.
      cbn [prepend ret app model weights]. rewrite <- ?app_assoc. reflexivity.
    + cbn [prepend ret app]. rewrite <- ?app_assoc. reflexivity.
Qed.

End ValidationPhase.

(** ** An epoch and a run, in every outcome *)

Section Outcomes.
Context {Image Weights Grads Optim : Type}.
Context `{FW : Framework Image Weights Grads Optim}.
Implicit Types (w : World Weights Grads) (p : Params Image).
Implicit Types (loc : Locals Weights Optim).

Lemma epoch_body_full p loc epoch w :
  exists opt1 l1 a1 l2 m1,
    device_of m1 = device_of (model w)
    /\ epoch_body p loc epoch w =
         let n1 := length (batches (train_loader p) (passes w)) in
         let bs2 := batches (validation_loader p) (S (passes w)) in
         let a2 := (eval_total (weights m1) bs2 0
                    / inject_Z (dataset_len p Validation))%Q in
         let loc' := after_phase Validation opt1 a2 (weights m1) loc in
         let t1 := SchedulerStep :: phase_events Train n1 l1 a1 epoch in
         if dataset_len p Train =? 0 then
           {| res := Raise (ZeroDivisionError FloatDivision);
              final := {| model := m1; files := files w; passes := S (passes w) |};
              trace := SchedulerStep :: pass_events Train n1 |}
         else if dataset_len p Validation =? 0 then
           {| res := Raise (ZeroDivisionError FloatDivision);
              final := {| model := after_validation m1 (length bs2);
                          files := files w; passes := S (S (passes w)) |};
              trace := t1 ++ pass_events Validation (length bs2) |}
         else if check_point p =? 0 then
           {| res := Raise (ZeroDivisionError IntegerModulo);
              final := {| model := after_validation m1 (length bs2);
                          files := files w; passes := S (S (passes w)) |};
              trace := t1 ++ phase_events Validation (length bs2) l2 a2 epoch |}
         else
           {| res := Ok loc';
              final := {| model := after_validation m1 (length bs2);
                          files := epoch_files p epoch (best_model loc') (files w);
                          passes := S (S (passes w)) |};
              trace := epoch_events p epoch n1 (length bs2) l1 a1 l2 a2
                         (best_model loc') |}.
Proof.
  set (loc0 := {| optimizer := sched_step (optimizer loc);
                  best_accuracy := best_accuracy loc;
                  best_model := best_model loc |}).
  destruct (run_phase_run p epoch loc0 Train w)
    as (opt1 & l1 & a1 & m1 & _ & Hd & _ & E1).
  destruct (run_phase_val_run p epoch (after_phase Train opt1 a1 (weights m1) loc0)
              {| model := m1; files := files w; passes := S (passes w) |})
    as (l2 & E2).
  cbn [passes files model loader] in E1, E2.
  exists opt1, l1, a1, l2, m1. split; [exact Hd|]. cbn zeta.
  unfold epoch_body. fold loc0.
  erewrite bind_eq by reflexivity.
  destruct (dataset_len p Train =? 0).
  { erewrite bind_eq_raise by exact E1. reflexivity. }
  erewrite bind_eq by exact E1.
  destruct (dataset_len p Validation =? 0).
  { erewrite bind_eq_raise by exact E2. reflexivity. }
  erewrite bind_eq by exact E2.
  unfold py_mod.
  destruct (check_point p =? 0).
  { erewrite bind_eq_raise by reflexivity.
    cbn [prepend app]. rewrite ?app_nil_r, <- ?app_assoc. reflexivity. }
  erewrite bind_eq by reflexivity.
  unfold epoch_events, epoch_files, checkpoint_due.
  destruct ((epoch mod check_point p =? 0) || (epoch =? num_epochs p - 1)).
  - erewrite bind_eq by reflexivity.
    cbn [prepend ret app files model passes].
    rewrite ?app_nil_r, <- ?app_assoc. reflexivity.
  - erewrite bind_eq by reflexivity.
    cbn [prepend ret app files model passes].
    rewrite ?app_nil_r, <- ?app_assoc. reflexivity.
Qed.

(** Induction over the epochs of a run, whatever their outcome. *)
Lemma train_prefix_ind p w (P : Outcome Weights Grads (Locals Weights Optim) -> Prop) :
  P (prologue p w) ->
  (forall k loc w1 t1,
      P {| res := Ok loc; final := w1; trace := t1 |} ->
      P (prepend t1 (epoch_body p loc (Z.of_nat k) w1))) ->
  (forall k, P (train_prefix p k w)).
Proof.
  intros H0 HS. induction k as [|k IH].
  - now rewrite train_prefix_0.
  - rewrite train_prefix_S. unfold bind.
    destruct (train_prefix p k w) as [[loc|e] w1 t1].
    + apply HS, IH.
    + exact IH.
Qed.

(** The whole run, from its loop. *)
Lemma train_model_cases p w :
  train_model p w =
    match train_prefix p (Z.to_nat (num_epochs p)) w with
    | {| res := Ok _; final := wK; trace := tK |} => prepend tK (epilogue p wK)
    | {| res := Raise e; final := wK; trace := tK |} =>
        {| res := Raise e; final := wK; trace := tK |}
    end.
Proof. rewrite train_model_prefix. reflexivity. Qed.

(** One more successful epoch, in full. *)
Lemma train_prefix_step_full p w k loc' :
  res (train_prefix p (S k) w) = Ok loc' ->
  exists loc opt1 l1 a1 l2 m1,
    res (train_prefix p k w) = Ok loc
    /\ device_of m1 = device_of (model (final (train_prefix p k w)))
    /\ (dataset_len p Train <> 0 /\ dataset_len p Validation <> 0 /\ check_point p <> 0)
    /\ let wk := final (train_prefix p k w) in
       let n1 := length (batches (train_loader p) (passes wk)) in
       let bs2 := batches (validation_loader p) (S (passes wk)) in
       let a2 := (eval_total (weights m1) bs2 0
                  / inject_Z (dataset_len p Validation))%Q in
       loc' = after_phase Validation opt1 a2 (weights m1) loc
       /\ final (train_prefix p (S k) w) =
            {| model := after_validation m1 (length bs2);
               files := epoch_files p (Z.of_nat k) (best_model loc') (files wk);
               passes := S (S (passes wk)) |}
       /\ trace (train_prefix p (S k) w) =
            trace (train_prefix p k w)
              ++ epoch_events p (Z.of_nat k) n1 (length bs2) l1 a1 l2 a2
                   (best_model loc').
Proof.
  intros H. rewrite train_prefix_S in H |- *.
  destruct (res (train_prefix p k w)) as [loc|e] eqn:Ek.
  2:{ rewrite (bind_raise _ _ _ _ Ek) in H. discriminate. }
  rewrite (bind_ok _ _ _ _ Ek) in H |- *.
  rewrite res_prepend in H. rewrite final_prepend, trace_prepend.
  destruct (epoch_body_ok_inv _ _ _ _ _ H) as (Ht & Hv & Hc).
  destruct (epoch_body_full p loc (Z.of_nat k) (final (train_prefix p k w)))
    as (opt1 & l1 & a1 & l2 & m1 & Hd & E).
  cbn zeta in E. rewrite E in H |- *. clear E.
  destruct (Z.eqb_spec (dataset_len p Train) 0); [contradiction|].
  destruct (Z.eqb_spec (dataset_len p Validation) 0); [contradiction|].
  destruct (Z.eqb_spec (check_point p) 0); [contradiction|].
  cbn [res final trace] in H |- *. injection H as <-.
  exists loc, opt1, l1, a1, l2, m1. cbn zeta. repeat split; auto.
Qed.

(** After the prologue the model is in evaluation mode on the device of
    the run, and it is so again at the end of every epoch; each epoch
    takes two passes. *)
Lemma prefix_mode p w k loc :
  res (train_prefix p k w) = Ok loc ->
  training (model (final (train_prefix p k w))) = false
  /\ device_of (model (final (train_prefix p k w))) = device p
  /\ passes (final (train_prefix p k w)) = (S (passes w) + 2 * k)%nat.
Proof.
  revert loc. induction k as [|k IH]; intros loc H.
  - destruct (train_prefix_baseline _ _ _ H) as (_ & _ & -> & _). cbn.
    repeat split. lia.
  - destruct (train_prefix_step_full _ _ _ _ H)
      as (loc0 & opt1 & l1 & a1 & l2 & m1 & Hk & Hd & _ & _ & -> & _).
    destruct (IH _ Hk) as (_ & IHd & IHp).
    cbn [model final training device_of passes after_validation].
    split; [reflexivity|]. split; [congruence|]. rewrite IHp. lia.
Qed.

(** The end of the run, exactly. *)
Lemma epilogue_full p w :
  dataset_len p Validation <> 0 ->
  epilogue p w =
    {| res := Ok tt;
       final := {| model := {| weights := weights (model w); grads := grads (model w);
                               training := false; device_of := device p |};
                   files := files w; passes := S (passes w) |};
       trace := test_events (device p)
                  (length (batches (validation_loader p) (passes w)))
                  ++ [AddText "Final_Accuracy"
                        (eval_total (weights (model w))
                           (batches (validation_loader p) (passes w)) 0
                         / inject_Z (dataset_len p Validation))%Q 0;
                      WriterClose] |}.
Proof.
  intros Hv. unfold epilogue.
  pose proof (test_model_run p w) as E. cbn zeta in E.
  destruct (Z.eqb_spec (dataset_len p Validation) 0); [contradiction|].
  erewrite bind_eq by exact E. reflexivity.
Qed.

Lemma train_model_full p w loc :
  res (train_prefix p (Z.to_nat (num_epochs p)) w) = Ok loc ->
  let o := train_prefix p (Z.to_nat (num_epochs p)) w in
  dataset_len p Validation <> 0
  /\ train_model p w =
       {| res := Ok tt;
          final := {| model := {| weights := weights (model (final o));
                                  grads := grads (model (final o));
                                  training := false; device_of := device p |};
                      files := files (final o); passes := S (passes (final o)) |};
          trace := trace o
                     ++ test_events (device p)
                          (length (batches (validation_loader p) (passes (final o))))
                     ++ [AddText "Final_Accuracy"
                           (eval_total (weights (model (final o)))
                              (batches (validation_loader p) (passes (final o))) 0
                            / inject_Z (dataset_len p Validation))%Q 0;
                         WriterClose] |}.
Proof.
  intros H o.
  assert (Hv : dataset_len p Validation <> 0).
  { destruct (train_prefix_downward p w 0 _ loc (Nat.le_0_l _) H) as [loc0 H0].
    rewrite train_prefix_0 in H0.
    pose proof (prologue_run p w) as E. cbn zeta in E. rewrite E in H0.
    cbn [res] in H0. intros Hz. rewrite Hz in H0. discriminate. }
  split; [exact Hv|].
  rewrite train_model_prefix, (bind_ok _ _ _ _ H). fold o.
  now rewrite (epilogue_full p (final o) Hv).
Qed.

(** A run returns exactly when its epochs do. *)
Lemma train_model_ok_inv p w :
  res (train_model p w) = Ok tt ->
  exists loc, res (train_prefix p (Z.to_nat (num_epochs p)) w) = Ok loc.
Proof.
  rewrite train_model_cases.
  destruct (train_prefix p (Z.to_nat (num_epochs p)) w) as [[loc|e] wK tK];
    [eauto|discriminate].
Qed.

End Outcomes.

(** ** The evaluator, further *)

Section EvaluatorMore.
Context {Image Weights Grads Optim : Type}.
Context `{FW : Framework Image Weights Grads Optim}.
Implicit Types (w : World Weights Grads) (p : Params Image).
Implicit Types (loc : Locals Weights Optim).

Lemma correct_items_le (wt : Weights) (items : list (Image * Label)) :
  (correct_items wt items <= length items)%nat.
Proof.
  unfold correct_items. induction items as [|x items IH]; cbn; [lia|].
  destruct (argmax _ =? _); cbn; lia.
Qed.



(** X3. The accuracy the validation phase of an epoch sends to the
    metrics writer is the value [test_model] returns on the same model
    and the same pass of the loader; on an empty dataset both raise and
    nothing is logged. *)
Theorem validation_phase_agrees_with_test_model p epoch loc w :
  val_accuracies (trace (run_phase p epoch loc Validation w)) =
    match res (test_model p w) with Ok acc => [acc] | Raise _ => [] end
  /\ (forall e, res (test_model p w) = Raise e <->
                res (run_phase p epoch loc Validation w) = Raise e).
Proof.
  pose proof (test_model_run p w) as E. cbn zeta in E. rewrite E. clear E.
  destruct (run_phase_val_run p epoch loc w) as [loss E]. cbn zeta in E. rewrite E.
  cbn [res]. destruct (dataset_len p Validation =? 0); cbn [res trace].
  - split; [|intros e; split; intros [= <-]; reflexivity]. unfold pass_events. rewrite !val_accuracies_app.
    now rewrite val_accuracies_concat_replicate.
  - split; [apply val_accuracies_phase_events|].
    intros e. split; discriminate.
Qed.


End EvaluatorMore.

(** ** The trainer, further *)

Section TrainerMore.
Context {Image Weights Grads Optim : Type}.
Context `{FW : Framework Image Weights Grads Optim}.
Implicit Types (w : World Weights Grads) (p : Params Image).
Implicit Types (loc : Locals Weights Optim).

Lemma count_events_cons (f : Event Weights -> bool) (e : Event Weights) t :
  count_events f (e :: t) = ((if f e then 1 else 0) + count_events f t)%nat.
Proof. unfold count_events. cbn. now destruct (f e). Qed.

Ltac count_calls :=
  unfold epoch_events, phase_events, pass_events, test_events, batch_events;
  repeat (rewrite ?count_events_app, ?count_events_cons,
            ?count_events_concat_replicate, ?count_events_replicate);
  unfold count_events; cbn; try lia.

Lemma epoch_events_counts p e n1 n2 l1 a1 l2 a2 (snap : Weights) :
  let t := epoch_events p e n1 n2 l1 a1 l2 a2 snap in
  count_events is_scheduler_step t = 1%nat
  /\ count_events is_optimizer_step t = n1
  /\ count_events is_backward t = n1
  /\ count_events is_zero_grad t = (n1 + n2)%nat
  /\ count_events is_forward t = (n1 + n2)%nat.
Proof.
  cbn zeta. unfold epoch_events.
  destruct (checkpoint_due p e); repeat split; count_calls.
Qed.

(** No epoch, whatever its outcome, opens or closes the metrics writer or
    writes the final text. *)
Lemma epoch_body_quiet p loc e w :
  count_events is_writer_open (trace (epoch_body p loc e w)) = 0%nat
  /\ count_events is_writer_close (trace (epoch_body p loc e w)) = 0%nat
  /\ count_events is_add_text (trace (epoch_body p loc e w)) = 0%nat.
Proof.
  destruct (epoch_body_full p loc e w) as (opt1 & l1 & a1 & l2 & m1 & _ & E).
  cbn zeta in E. rewrite E. clear E.
  destruct (dataset_len p Train =? 0); [cbn [trace]; repeat split; count_calls|].
  destruct (dataset_len p Validation =? 0); [cbn [trace]; repeat split; count_calls|].
  destruct (check_point p =? 0); [cbn [trace]; repeat split; count_calls|].
  cbn [trace]. unfold epoch_events.
  destruct (checkpoint_due p e); repeat split; count_calls.
Qed.


(** The writer is opened first, and nothing in the loop touches it. *)
Lemma prefix_writer p w k :
  exists t,
    trace (train_prefix p k w) = WriterOpen ("runs/" +:+ description p) :: t
    /\ count_events is_writer_open t = 0%nat
    /\ count_events is_writer_close t = 0%nat
    /\ count_events is_add_text t = 0%nat.
Proof.
  apply (train_prefix_ind p w
           (fun o => exists t,
                trace o = WriterOpen ("runs/" +:+ description p) :: t
                /\ count_events is_writer_open t = 0%nat
                /\ count_events is_writer_close t = 0%nat
                /\ count_events is_add_text t = 0%nat)).
  - pose proof (prologue_run p w) as E. cbn zeta in E. rewrite E. cbn [trace].
    eexists. split; [reflexivity|].
    change (ModelTo ?d :: ?t) with ([ModelTo (Weights := Weights) d] ++ t).
    repeat split; count_calls.
  - intros j loc w1 t1 (t & Ht & Ho & Hc & Ha). cbn [trace] in Ht. subst t1.
    rewrite trace_prepend.
    destruct (epoch_body_quiet p loc (Z.of_nat j) w1) as (Qo & Qc & Qa).
    exists (t ++ trace (epoch_body p loc (Z.of_nat j) w1)).
    split; [reflexivity|]. rewrite !count_events_app, Ho, Hc, Ha, Qo, Qc, Qa.
    repeat split.
Qed.

(** X6. The metrics writer is opened by the first call of a run and by
    no other. When the run returns, its last two calls are the
    [Final_Accuracy] text and the closing of the writer, and neither
    occurs before; when the run raises, the writer is never closed and no
    [Final_Accuracy] is written. *)
Theorem writer_lifecycle p w :
  let o := train_model p w in
  (exists t, trace o = WriterOpen ("runs/" +:+ description p) :: t
             /\ count_events is_writer_open t = 0%nat)
  /\ match res o with
     | Ok _ =>
         exists t acc,
           trace o = t ++ [AddText "Final_Accuracy" acc 0; WriterClose]
           /\ count_events is_writer_close t = 0%nat
           /\ count_events is_add_text t = 0%nat
     | Raise _ =>
         count_events is_writer_close (trace o) = 0%nat
         /\ count_events is_add_text (trace o) = 0%nat
     end.
Proof.
  cbn zeta.
  destruct (prefix_writer p w (Z.to_nat (num_epochs p))) as (t & Ht & Ho & Hc & Ha).
  destruct (res (train_prefix p (Z.to_nat (num_epochs p)) w)) as [loc|e] eqn:HK.
  - destruct (train_model_full p w loc HK) as [_ E]. cbn zeta in E. rewrite E.
    cbn [res trace]. rewrite Ht. split.
    + match goal with
      | |- context [(_ :: t) ++ ?rest] => exists (t ++ rest)
      end.
      split; [reflexivity|]. rewrite !count_events_app, Ho. count_calls.
    + exists ((WriterOpen ("runs/" +:+ description p) :: t)
               ++ test_events (device p)
                    (length (batches (validation_loader p)
                               (passes (final (train_prefix p (Z.to_nat (num_epochs p)) w)))))).
      eexists. split; [now rewrite <- app_assoc|].
      change (WriterOpen ?s :: t) with ([WriterOpen (Weights := Weights) s] ++ t).
      rewrite !count_events_app, Hc, Ha. split; count_calls.
  - rewrite (train_model_raise _ _ _ HK). cbn [res trace]. rewrite Ht. split.
    + eauto.
    + change (WriterOpen ?s :: t) with ([WriterOpen (Weights := Weights) s] ++ t).
      rewrite !count_events_app, Hc, Ha. split; reflexivity.
Qed.

Lemma train_batches_upto_S p n k :
  train_batches_upto p n (S k) =
    (train_batches_upto p n k + length (batches (train_loader p) (S n + 2 * k)))%nat.
Proof.
  unfold train_batches_upto. rewrite seq_S, map_app, sum_list_with_app. cbn. lia.
Qed.

Lemma val_batches_upto_S p n k :
  val_batches_upto p n (S k) =
    (val_batches_upto p n k
     + length (batches (validation_loader p) (S (S n) + 2 * k)))%nat.
Proof.
  unfold val_batches_upto. rewrite seq_S, map_app, sum_list_with_app. cbn. lia.
Qed.

Lemma prefix_counts p w k loc :
  res (train_prefix p k w) = Ok loc ->
  let t := trace (train_prefix p k w) in
  count_events is_scheduler_step t = k
  /\ count_events is_optimizer_step t = train_batches_upto p (passes w) k
  /\ count_events is_backward t = train_batches_upto p (passes w) k
  /\ count_events is_zero_grad t =
       (train_batches_upto p (passes w) k + val_batches_upto p (passes w) k)%nat
  /\ count_events is_forward t =
       (length (batches (validation_loader p) (passes w))
        + train_batches_upto p (passes w) k + val_batches_upto p (passes w) k)%nat.
Proof.
  cbn zeta. revert loc. induction k as [|k IH]; intros loc H.
  - destruct (train_prefix_baseline _ _ _ H) as (_ & _ & _ & ->).
    repeat split; count_calls.
  - destruct (train_prefix_step_full _ _ _ _ H)
      as (loc0 & opt1 & l1 & a1 & l2 & m1 & Hk & _ & _ & Hstep).
    cbn zeta in Hstep. destruct Hstep as (_ & _ & ->).
    destruct (IH _ Hk) as (Is & Io & Ib & Iz & If).
    destruct (prefix_mode _ _ _ _ Hk) as (_ & _ & Hp).
    rewrite Hp.
    match goal with
    | |- context [epoch_events p ?e ?n1 ?n2 ?l1 ?a1 ?l2 ?a2 ?snap] =>
        destruct (epoch_events_counts p e n1 n2 l1 a1 l2 a2 snap)
          as (Es & Eo & Eb & Ez & Ef)
    end.
    rewrite !count_events_app, Is, Io, Ib, Iz, If, Es, Eo, Eb, Ez, Ef.
    rewrite train_batches_upto_S, val_batches_upto_S.
    replace (S (S (passes w) + 2 * k)) with (S (S (passes w)) + 2 * k)%nat by lia.
    repeat split; lia.
Qed.

(** X7. In a run that returns, the scheduler is stepped once per epoch,
    and the optimizer is stepped once, after one backward pass, for every
    batch the training loader yields over the epochs, and for no other
    batch; the gradients are cleared once for every batch of the training
    and of the validation phases. The two calls of [test_model] add their
    forward passes and nothing else. *)
Theorem call_counts p w :
  res (train_model p w) = Ok tt ->
  let t := trace (train_model p w) in
  let E := Z.to_nat (num_epochs p) in
  let trained := train_batches_upto p (passes w) E in
  let validated := val_batches_upto p (passes w) E in
  count_events is_scheduler_step t = E
  /\ count_events is_optimizer_step t = trained
  /\ count_events is_backward t = trained
  /\ count_events is_zero_grad t = (trained + validated)%nat
  /\ count_events is_forward t =
       (length (batches (validation_loader p) (passes w))
        + trained + validated
        + length (batches (validation_loader p) (S (passes w) + 2 * E)))%nat.
Proof.
  intros H. cbn zeta. destruct (train_model_ok_inv _ _ H) as [loc HK].
  destruct (train_model_full p w loc HK) as [_ E]. cbn zeta in E. rewrite E.
  cbn [trace].
  destruct (prefix_counts _ _ _ _ HK) as (Is & Io & Ib & Iz & If).
  destruct (prefix_mode _ _ _ _ HK) as (_ & _ & Hp). rewrite Hp.
  rewrite !count_events_app, Is, Io, Ib, Iz, If.
  repeat split; count_calls.
Qed.

(** The calls of a run grow epoch by epoch. *)
Lemma trace_prefix_extends p w j k loc :
  (j <= k)%nat -> res (train_prefix p k w) = Ok loc ->
  exists rest, trace (train_prefix p k w) = trace (train_prefix p j w) ++ rest.
Proof.
  intros Hjk. revert loc. induction Hjk as [|k _ IH]; intros loc H.
  - exists []. now rewrite app_nil_r.
  - destruct (train_prefix_step_full _ _ _ _ H)
      as (loc0 & opt1 & l1 & a1 & l2 & m1 & Hk & _ & _ & Hstep).
    cbn zeta in Hstep. destruct Hstep as (_ & _ & ->).
    destruct (IH _ Hk) as [rest ->]. eexists. now rewrite <- app_assoc.
Qed.

(** X8. Every epoch begins by stepping the learning-rate scheduler,
    before any of its batches, and steps it no more; so, in a run of at
    least one epoch, the first scheduler step comes before the first
    optimizer step. *)
Theorem scheduler_steps_first p w :
  res (train_model p w) = Ok tt ->
  (forall k loc_k, (k < Z.to_nat (num_epochs p))%nat ->
     res (train_prefix p (S k) w) = Ok loc_k ->
     exists rest,
       trace (train_prefix p (S k) w) =
         trace (train_prefix p k w) ++ SchedulerStep :: rest
       /\ count_events is_scheduler_step rest = 0%nat)
  /\ (1 <= num_epochs p ->
      exists before after,
        trace (train_model p w) = before ++ SchedulerStep :: after
        /\ count_events is_scheduler_step before = 0%nat
        /\ count_events is_optimizer_step before = 0%nat).
Proof.
  intros H. destruct (train_model_ok_inv _ _ H) as [loc HK]. split.
  - intros k loc_k _ Hk.
    destruct (train_prefix_step_full _ _ _ _ Hk)
      as (loc0 & opt1 & l1 & a1 & l2 & m1 & _ & _ & _ & Hstep).
    cbn zeta in Hstep. destruct Hstep as (_ & _ & ->).
    unfold epoch_events. eexists. split; [reflexivity|].
    destruct (checkpoint_due p (Z.of_nat k)); count_calls.
  - intros HE.
    assert (H1K : (1 <= Z.to_nat (num_epochs p))%nat) by lia.
    destruct (train_prefix_downward p w 1 _ loc H1K HK) as [loc1 H1].
    destruct (trace_prefix_extends p w 1 _ loc H1K HK) as [rest Hrest].
    destruct (train_prefix_step_full _ _ _ _ H1)
      as (loc0 & opt1 & l1 & a1 & l2 & m1 & H0 & _ & _ & Hstep).
    cbn zeta in Hstep. destruct Hstep as (_ & _ & Ht1).
    destruct (train_prefix_baseline _ _ _ H0) as (_ & _ & _ & Ht0).
    destruct (train_model_full p w loc HK) as [_ E]. cbn zeta in E. rewrite E.
    cbn [trace]. rewrite Hrest, Ht1. unfold epoch_events.
    exists (trace (train_prefix p 0 w)). eexists.
    split; [rewrite <- !app_assoc; reflexivity|].
    rewrite Ht0. split; count_calls.
Qed.

Lemma final_accuracies_app (t1 t2 : list (Event Weights)) :
  final_accuracies (t1 ++ t2) = final_accuracies t1 ++ final_accuracies t2.
Proof. apply omap_app. Qed.

Lemma final_accuracies_quiet (t : list (Event Weights)) :
  count_events is_add_text t = 0%nat -> final_accuracies t = [].
Proof.
  induction t as [|e t IH]; [reflexivity|].
  rewrite count_events_cons. destruct e; cbn; try (intros H; apply IH; lia).
  discriminate.
Qed.


(** X10. On a validation loader that yields the same batches at every
    pass, the [Final_Accuracy] of a run of at least one epoch is the
    validation accuracy logged for its last epoch. *)
Theorem final_accuracy_repeats_last_validation p w :
  res (train_model p w) = Ok tt ->
  1 <= num_epochs p ->
  (forall i j, batches (validation_loader p) i = batches (validation_loader p) j) ->
  exists acc,
    last (val_accuracies (trace (train_model p w))) = Some acc
    /\ final_accuracies (trace (train_model p w)) = [acc].
Proof.
  intros H HE Hdet. destruct (train_model_ok_inv _ _ H) as [loc HK].
  destruct (train_model_full p w loc HK) as [Hv E]. cbn zeta in E. rewrite E.
  cbn [trace]. clear E.
  destruct (prefix_writer p w (Z.to_nat (num_epochs p))) as (t & Ht & _ & _ & Ha).
  destruct (Z.to_nat (num_epochs p)) as [|k] eqn:EK; [lia|].
  destruct (train_prefix_step_full _ _ _ _ HK)
    as (loc0 & opt1 & l1 & a1 & l2 & m1 & Hk & _ & _ & Hstep).
  cbn zeta in Hstep. destruct Hstep as (_ & Hf & Htr).
  eexists. split.
  - rewrite Htr, !val_accuracies_app, val_accuracies_epoch_events,
      val_accuracies_test_events.
    cbn [val_accuracies omap app]. rewrite !app_nil_r. apply last_snoc.
  - rewrite Ht.
    change (WriterOpen ?s :: t) with ([WriterOpen (Weights := Weights) s] ++ t).
    rewrite !final_accuracies_app, (final_accuracies_quiet t Ha).
    rewrite (final_accuracies_quiet (test_events _ _)) by count_calls.
    rewrite Hf. cbn [model weights after_validation passes final_accuracies omap app].
    cbn [String.eqb Ascii.eqb Bool.eqb].
    rewrite (Hdet (S (S (passes (final (train_prefix p k w)))))
               (S (passes (final (train_prefix p k w))))).
    reflexivity.
Qed.



Lemma checkpoint_after_epoch p w k loc :
  res (train_prefix p (S k) w) = Ok loc ->
  exists j loc_j,
    (j <= k)%nat
    /\ checkpoint_due p (Z.of_nat j) = true
    /\ (forall e, (j < e <= k)%nat -> checkpoint_due p (Z.of_nat e) = false)
    /\ res (train_prefix p (S j) w) = Ok loc_j
    /\ files (final (train_prefix p (S k) w)) !! checkpoint_path p
         = Some (best_model loc_j).
Proof.
  revert loc. induction k as [|k IH]; intros loc H.
  - destruct (train_prefix_step_full _ _ _ _ H)
      as (loc0 & opt1 & l1 & a1 & l2 & m1 & Hk & _ & _ & Hstep).
    cbn zeta in Hstep. destruct Hstep as (_ & Hf & _).
    assert (Hdue : checkpoint_due p (Z.of_nat 0) = true).
    { unfold checkpoint_due. cbn [Z.of_nat]. now rewrite Zmod_0_l. }
    exists 0%nat, loc. split; [lia|]. split; [exact Hdue|].
    split; [intros e He; lia|]. split; [exact H|].
    rewrite Hf. cbn [files]. unfold epoch_files. rewrite Hdue.
    apply lookup_insert_eq.
  - destruct (train_prefix_step_full _ _ _ _ H)
      as (loc0 & opt1 & l1 & a1 & l2 & m1 & Hk & _ & _ & Hstep).
    cbn zeta in Hstep. destruct Hstep as (_ & Hf & _).
    rewrite Hf. cbn [files]. unfold epoch_files.
    destruct (checkpoint_due p (Z.of_nat (S k))) eqn:Hdue.
    + exists (S k), loc. split; [lia|]. split; [exact Hdue|].
      split; [intros e He; lia|]. split; [exact H|]. apply lookup_insert_eq.
    + destruct (IH _ Hk) as (j & loc_j & Hj & Hdj & Hnone & Hrj & Hfj).
      exists j, loc_j. split; [lia|]. split; [exact Hdj|]. split.
      * intros e He. destruct (Nat.eq_dec e (S k)) as [->|Hne]; [exact Hdue|].
        apply Hnone. lia.
      * split; [exact Hrj|exact Hfj].
Qed.

(** X12. Once the first epoch of a run is complete the checkpoint file
    exists, epoch 0 always being a checkpoint epoch. After [k >= 1]
    complete epochs it holds the best snapshot as it was at the end of
    the last epoch [j < k] whose checkpoint was due, so that an
    improvement made since is not on disk yet. *)
Theorem checkpoint_on_disk p w k loc :
  (1 <= k)%nat ->
  res (train_prefix p k w) = Ok loc ->
  exists j loc_j,
    (j < k)%nat
    /\ ((Z.of_nat j mod check_point p =? 0) || (Z.of_nat j =? num_epochs p - 1)) = true
    /\ (forall e, (j < e < k)%nat ->
          ((Z.of_nat e mod check_point p =? 0) || (Z.of_nat e =? num_epochs p - 1))
          = false)
    /\ res (train_prefix p (S j) w) = Ok loc_j
    /\ files (final (train_prefix p k w))
         !! (state_dict_path p +:+ description p +:+ ".pt")%string
       = Some (best_model loc_j).
Proof.
  intros Hk H. destruct k as [|k]; [lia|].
  destruct (checkpoint_after_epoch _ _ _ _ H) as (j & loc_j & Hj & Hd & Hn & Hr & Hf).
  exists j, loc_j. split; [lia|]. split; [exact Hd|]. split.
  - intros e He. apply Hn. lia.
  - split; [exact Hr|exact Hf].
Qed.

Lemma scalar_keys_app (t1 t2 : list (Event Weights)) :
  scalar_keys (t1 ++ t2) = scalar_keys t1 ++ scalar_keys t2.
Proof. apply omap_app. Qed.

Lemma scalar_keys_batches ph n :
  scalar_keys (concat (replicate n (batch_events (Weights := Weights) ph))) = [].
Proof.
  induction n as [|n IH]; [reflexivity|].
  cbn [replicate concat]. rewrite scalar_keys_app, IH. now destruct ph.
Qed.

Lemma scalar_keys_test_events d n :
  scalar_keys (test_events (Weights := Weights) d n) = [].
Proof.
  unfold test_events. rewrite !scalar_keys_app.
  replace (scalar_keys (replicate n Forward)) with (@nil (string * Phase * Z));
    [reflexivity|].
  induction n as [|n IH]; [reflexivity|exact IH].
Qed.

Lemma scalar_keys_epoch_events p e n1 n2 l1 a1 l2 a2 (snap : Weights) :
  scalar_keys (epoch_events p e n1 n2 l1 a1 l2 a2 snap) = epoch_keys e.
Proof.
  unfold epoch_events, phase_events.
  change (SchedulerStep :: ?t) with ([SchedulerStep (Weights := Weights)] ++ t).
  rewrite !scalar_keys_app, !scalar_keys_batches.
  now destruct (checkpoint_due p e).
Qed.

(** X13. A run that returns logs, for each epoch index of
    [range(num_epochs)] in turn, the four scalars [Loss] and [Accuracy]
    of the training phase and [Loss] and [Accuracy] of the validation
    phase, in this order and under this epoch index, and no other
    scalar: the two calls of [test_model] log none. *)
Theorem logged_scalars p w :
  res (train_model p w) = Ok tt ->
  scalar_keys (trace (train_model p w)) =
    flat_map (fun epoch =>
                [("Loss"%string, Train, epoch); ("Accuracy"%string, Train, epoch);
                 ("Loss"%string, Validation, epoch);
                 ("Accuracy"%string, Validation, epoch)])
      (range (num_epochs p)).
Proof.
  intros H. destruct (train_model_ok_inv _ _ H) as [loc HK].
  destruct (train_model_full p w loc HK) as [_ E]. cbn zeta in E. rewrite E.
  cbn [trace]. clear E.
  rewrite !scalar_keys_app, scalar_keys_test_events.
  cbn [scalar_keys omap app]. rewrite app_nil_r.
  unfold range. revert loc HK.
  induction (Z.to_nat (num_epochs p)) as [|k IH]; intros loc HK.
  - destruct (train_prefix_baseline _ _ _ HK) as (_ & _ & _ & ->).
    change (?a :: ?b :: ?t) with ([a; b] ++ t).
    now rewrite scalar_keys_app, scalar_keys_test_events.
  - destruct (train_prefix_step_full _ _ _ _ HK)
      as (loc0 & opt1 & l1 & a1 & l2 & m1 & Hk & _ & _ & Hstep).
    cbn zeta in Hstep. destruct Hstep as (_ & _ & ->).
    rewrite scalar_keys_app, scalar_keys_epoch_events, (IH _ Hk).
    rewrite seq_S, map_app, flat_map_app. cbn [map flat_map Nat.add].
    now rewrite app_nil_r.
Qed.

End TrainerMore.


(** ** The loaders *)

Section Batching.
Context {A : Type}.
Implicit Types (l : list A).

Lemma chunks_fuel_concat fuel bs l :
  (0 < bs)%nat -> (length l <= fuel)%nat -> concat (chunks_fuel fuel bs l) = l.
Proof.
  intros Hbs. revert l. induction fuel as [|fuel IH]; intros l Hl.
  - destruct l; [reflexivity|cbn in Hl; lia].
  - destruct l as [|x l]; [reflexivity|].
    cbn [chunks_fuel concat]. rewrite IH, take_drop; [reflexivity|].
    rewrite length_drop. cbn [length] in *. lia.
Qed.

Lemma chunks_fuel_sizes fuel bs l :
  (0 < bs)%nat ->
  Forall (fun b => (0 < length b <= bs)%nat) (chunks_fuel fuel bs l).
Proof.
  intros Hbs. revert l. induction fuel as [|fuel IH]; intros l; [constructor|].
  destruct l as [|x l]; [constructor|].
  cbn [chunks_fuel]. constructor; [|apply IH].
  rewrite length_take. cbn [length]. lia.
Qed.

Lemma chunks_fuel_full fuel bs l i b :
  chunks_fuel fuel bs l !! i = Some b ->
  (S i < length (chunks_fuel fuel bs l))%nat ->
  length b = bs.
Proof.
  revert l i. induction fuel as [|fuel IH]; intros l i; [discriminate|].
  destruct l as [|x l]; [discriminate|].
  cbn [chunks_fuel]. destruct i as [|i]; cbn [lookup list_lookup length].
  - intros [= <-] Hi. rewrite length_take.
    destruct fuel as [|fuel]; [cbn in Hi; lia|].
    destruct (drop bs (x :: l)) as [|y r] eqn:Ed; [cbn in Hi; lia|].
    assert (length (drop bs (x :: l)) = S (length r)) as Hd by now rewrite Ed.
    rewrite length_drop in Hd. lia.
  - intros Hb Hi. apply (IH _ _ Hb). lia.
Qed.

Lemma chunks_fuel_length fuel bs l :
  (0 < bs)%nat -> (length l <= fuel)%nat ->
  length (chunks_fuel fuel bs l) = ((length l + bs - 1) / bs)%nat.
Proof.
  intros Hbs. revert l. induction fuel as [|fuel IH]; intros l Hl.
  - destruct l; [|cbn in Hl; lia]. cbn. symmetry. apply Nat.div_small. lia.
  - destruct l as [|x l].
    + cbn. symmetry. apply Nat.div_small. lia.
    + cbn [chunks_fuel length]. rewrite IH by (rewrite length_drop; cbn [length] in *; lia).
      rewrite length_drop. cbn [length].
      destruct (Nat.le_gt_cases (S (length l)) bs) as [Hle|Hgt].
      * replace (S (length l) - bs)%nat with 0%nat by lia.
        rewrite (Nat.div_small (0 + bs - 1)) by lia.
        apply (Nat.div_unique _ _ 1 (length l)); lia.
      * replace (S (length l) + bs - 1)%nat
          with ((S (length l) - bs + bs - 1) + 1 * bs)%nat by lia.
        rewrite Nat.div_add by lia. lia.
Qed.

End Batching.

Section Loaders.
Context {Raw Image Weights Grads Optim : Type}.
Context `{DL : DataLib Raw Image} `{FW : Framework Image Weights Grads Optim}.
Implicit Types (w : World Weights Grads) (p : Params Image) (dp : DataParams).

Lemma transform_train_labels pass i (l : list (Raw * Label)) :
  map snd (transform_train pass i l) = map snd l.
Proof. revert i. induction l as [|rl l IH]; intros i; cbn; [|rewrite IH]; reflexivity. Qed.

Lemma transform_train_length pass i (l : list (Raw * Label)) :
  length (transform_train pass i l) = length l.
Proof. revert i. induction l as [|rl l IH]; intros i; cbn; [|rewrite IH]; reflexivity. Qed.

Lemma omap_lookup_seq {X} (pre l : list X) :
  omap (fun j => (pre ++ l) !! j) (seq (length pre) (length l)) = l.
Proof.
  revert pre. induction l as [|x l IH]; intros pre; [reflexivity|].
  cbn [length seq].
  change (omap ?f (?a :: ?t)) with (from_option (fun y => y :: omap f t) (omap f t) (f a)).
  cbv beta. rewrite (list_lookup_middle pre l x (length pre) eq_refl).
  cbn [from_option]. f_equal. specialize (IH (pre ++ [x])).
  rewrite <- app_assoc, length_app in IH. cbn [app length] in IH.
  now rewrite Nat.add_1_r in IH.
Qed.

(** One pass of the training loader reads every item once. *)
Lemma train_pass_perm (trainset : list (Raw * Label)) pass :
  Permutation (train_pass trainset pass) (transform_train pass 0 trainset).
Proof.
  unfold train_pass. rewrite random_order_perm.
  rewrite <- (transform_train_length pass 0 trainset).
  pose proof (omap_lookup_seq [] (transform_train pass 0 trainset)) as E.
  cbn [app length] in E. now rewrite E.
Qed.

Lemma make_dataloaders_inv dp tr te :
  make_dataloaders dp = inr (tr, te) ->
  exists trainset testset,
    cifar10 (path dp) true = Some trainset
    /\ cifar10 (path dp) false = Some testset
    /\ tr = {| dataset := map transform_validation trainset;
               batches := fun pass =>
                 chunks (Pos.to_nat (batch_size dp)) (train_pass trainset pass) |}
    /\ te = {| dataset := map transform_validation testset;
               batches := fun _ =>
                 chunks (Pos.to_nat (batch_size dp)) (map transform_validation testset) |}.
Proof.
  unfold make_dataloaders.
  destruct (cifar10 (path dp) true) as [trainset|]; [|discriminate].
  destruct (cifar10 (path dp) false) as [testset|]; [|discriminate].
  intros [= <- <-]. eauto 6.
Qed.

(** X14. The test loader [make_dataloaders] builds yields, at every
    pass, the items of the test split in their order on disk, each
    exactly once and transformed without augmentation, cut into batches
    of [batch_size] items with a shorter, non-empty last batch when the
    size does not divide: [ceil(N / batch_size)] batches for [N]
    items. *)
Theorem test_loader_batches dp tr te :
  make_dataloaders dp = inr (tr, te) ->
  let bs := Pos.to_nat (batch_size dp) in
  (exists testset,
      cifar10 (path dp) false = Some testset
      /\ dataset te = map (fun rl => (to_tensor_normalize (fst rl), snd rl)) testset)
  /\ forall pass,
       concat (batches te pass) = dataset te
       /\ Forall (fun b => (0 < length b <= bs)%nat) (batches te pass)
       /\ (forall i b, batches te pass !! i = Some b ->
              (S i < length (batches te pass))%nat -> length b = bs)
       /\ length (batches te pass) = ((length (dataset te) + bs - 1) / bs)%nat.
Proof.
  intros H. cbn zeta.
  destruct (make_dataloaders_inv _ _ _ H) as (trainset & testset & _ & Hte & _ & ->).
  cbn [dataset batches]. split; [exists testset; split; [exact Hte|reflexivity]|].
  intros pass. unfold chunks. split; [|split; [|split]].
  - apply chunks_fuel_concat; lia.
  - apply chunks_fuel_sizes. lia.
  - intros i b. apply chunks_fuel_full.
  - apply chunks_fuel_length; lia.
Qed.

(** X15. Every pass of the training loader [make_dataloaders] builds
    reads each item of the training split exactly once, in an order and
    under an augmentation of its own: the labels of a pass are a
    permutation of the labels of the split, and the batches have
    [batch_size] items except a shorter, non-empty last one,
    [ceil(N / batch_size)] batches in all. *)
Theorem train_loader_batches dp tr te :
  make_dataloaders dp = inr (tr, te) ->
  let bs := Pos.to_nat (batch_size dp) in
  exists trainset,
    cifar10 (path dp) true = Some trainset
    /\ length (dataset tr) = length trainset
    /\ forall pass,
         Permutation (map snd (concat (batches tr pass))) (map snd trainset)
         /\ length (concat (batches tr pass)) = length trainset
         /\ Forall (fun b => (0 < length b <= bs)%nat) (batches tr pass)
         /\ (forall i b, batches tr pass !! i = Some b ->
                (S i < length (batches tr pass))%nat -> length b = bs)
         /\ length (batches tr pass) = ((length trainset + bs - 1) / bs)%nat.
Proof.
  intros H. cbn zeta.
  destruct (make_dataloaders_inv _ _ _ H) as (trainset & testset & Htr & _ & -> & _).
  exists trainset. cbn [dataset batches]. split; [exact Htr|].
  split; [now rewrite length_map|].
  intros pass. unfold chunks.
  assert (Hlen : length (train_pass trainset pass) = length trainset).
  { rewrite (Permutation_length (train_pass_perm trainset pass)).
    apply transform_train_length. }
  rewrite chunks_fuel_concat by lia.
  split; [|split; [exact Hlen|split; [|split]]].
  - rewrite (train_pass_perm trainset pass). now rewrite transform_train_labels.
  - apply chunks_fuel_sizes. lia.
  - intros i b. apply chunks_fuel_full.
  - rewrite <- Hlen. apply chunks_fuel_length; lia.
Qed.

(** X16. On the test loader [make_dataloaders] builds, with a test split
    that is not empty, [test_model] returns the share of the items of the
    split the model classifies correctly, a value between 0 and 1, and
    returns it again when called again. *)
Theorem test_model_on_test_split dp tr te p w :
  make_dataloaders dp = inr (tr, te) ->
  validation_loader p = te ->
  dataset te <> [] ->
  exists acc,
    res (test_model p w) = Ok acc
    /\ (acc == inject_Z (Z.of_nat (correct_items (weights (model w)) (dataset te)))
               / inject_Z (Z.of_nat (length (dataset te))))%Q
    /\ (0 <= acc)%Q /\ (acc <= 1)%Q
    /\ res (test_model p (final (test_model p w))) = Ok acc.
Proof.
  intros H Hp Hne.
  destruct (make_dataloaders_inv _ _ _ H) as (trainset & testset & _ & _ & _ & Hte).
  assert (Hb : forall pass, concat (batches te pass) = dataset te).
  { intros pass. rewrite Hte. cbn [dataset batches]. unfold chunks.
    apply chunks_fuel_concat; lia. }
  assert (Hdet : forall i j, batches te i = batches te j) by now rewrite Hte.
  assert (HN : dataset_len p Validation <> 0).
  { unfold dataset_len. cbn [loader]. rewrite Hp. destruct (dataset te); [easy|].
    cbn [length]. lia. }
  pose proof (test_model_run p (final (test_model p w))) as E2.
  pose proof (test_model_run p w) as E1. cbn zeta in E1, E2.
  rewrite E1 in E2 at 2 3. cbn [final model weights passes] in E2.
  rewrite E2, E1. cbn [res]. rewrite Hp.
  rewrite (Hdet (S (passes w)) (passes w)).
  destruct (Z.eqb_spec (dataset_len p Validation) 0); [contradiction|].
  assert (Hpos : (0 < inject_Z (dataset_len p Validation))%Q).
  { rewrite <- (Zlt_Qlt 0). unfold dataset_len in *. lia. }
  pose proof (correct_items_le (weights (model w)) (dataset te)) as Hc.
  unfold dataset_len in *. cbn [loader] in *. rewrite Hp in *.
  set (qc := inject_Z (Z.of_nat (correct_items (weights (model w)) (dataset te)))).
  set (qn := inject_Z (Z.of_nat (length (dataset te)))) in *.
  assert (HX : (eval_total (weights (model w)) (batches te (passes w)) 0 / qn == qc / qn)%Q).
  { apply Qmult_comp; [|reflexivity].
    rewrite eval_total_correct. rewrite Hb. apply Qplus_0_l. }
  eexists. split; [reflexivity|]. split; [exact HX|].
  split; [|split; [|reflexivity]].
  - apply (Qle_trans _ (qc / qn)); [|rewrite HX; apply Qle_refl].
    apply Qle_shift_div_l; [exact Hpos|]. rewrite Qmult_0_l.
    unfold qc. rewrite <- (Zle_Qle 0). lia.
  - apply (Qle_trans _ (qc / qn)); [rewrite HX; apply Qle_refl|].
    apply Qle_shift_div_r; [exact Hpos|]. rewrite Qmult_1_l.
    unfold qc, qn. rewrite <- Zle_Qle. lia.
Qed.

(** X17. The accuracy [test_model] returns on a test loader built by
    [make_dataloaders] does not depend on the batch size or on the
    number of workers the loader was built with. *)
Theorem test_accuracy_independent_of_batch_size dp dp' tr te tr' te' p p' w acc acc' :
  make_dataloaders dp = inr (tr, te) ->
  make_dataloaders dp' = inr (tr', te') ->
  path dp = path dp' ->
  validation_loader p = te ->
  validation_loader p' = te' ->
  res (test_model p w) = Ok acc ->
  res (test_model p' w) = Ok acc' ->
  (acc == acc')%Q.
Proof.
  intros H H' Hpath Hp Hp'.
  destruct (make_dataloaders_inv _ _ _ H) as (trainset & testset & _ & Hts & _ & Hte).
  destruct (make_dataloaders_inv _ _ _ H') as (trainset' & testset' & _ & Hts' & _ & Hte').
  assert (testset' = testset) as -> by congruence.
  pose proof (test_model_run p w) as E. pose proof (test_model_run p' w) as E'.
  cbn zeta in E, E'. rewrite E, E'. cbn [res]. clear E E'.
  unfold dataset_len. cbn [loader]. rewrite Hp, Hp', Hte, Hte'. cbn [dataset batches].
  destruct (Z.of_nat (length (map transform_validation testset)) =? 0); [discriminate|].
  intros [= <-] [= <-]. unfold chunks.
  apply Qmult_comp; [|reflexivity].
  rewrite (eval_total_correct _ (chunks_fuel _ (Pos.to_nat (batch_size dp)) _)).
  rewrite (eval_total_correct _ (chunks_fuel _ (Pos.to_nat (batch_size dp')) _)).
  rewrite !chunks_fuel_concat by lia. reflexivity.
Qed.

Lemma batches_upto_constant p n k ct cv :
  (forall pass, length (batches (train_loader p) pass) = ct) ->
  (forall pass, length (batches (validation_loader p) pass) = cv) ->
  train_batches_upto p n k = (k * ct)%nat /\ val_batches_upto p n k = (k * cv)%nat.
Proof.
  intros Ht Hv. induction k as [|k [IHt IHv]]; [split; reflexivity|].
  rewrite train_batches_upto_S, val_batches_upto_S, IHt, IHv, Ht, Hv. lia.
Qed.

(** X18. A run of [train_model] on the loaders [make_dataloaders] builds
    that returns makes [ceil(N_train / batch_size)] optimizer steps in
    each epoch, clears the gradients once per batch of either loader in
    each epoch, and makes a forward pass for every batch of both
    loaders in each epoch and for every batch of the test loader in the
    two evaluations before and after the epochs. *)
Theorem updates_per_run dp tr te p w :
  make_dataloaders dp = inr (tr, te) ->
  train_loader p = tr ->
  validation_loader p = te ->
  res (train_model p w) = Ok tt ->
  let bs := Pos.to_nat (batch_size dp) in
  let E := Z.to_nat (num_epochs p) in
  let per_train := ((length (dataset tr) + bs - 1) / bs)%nat in
  let per_test := ((length (dataset te) + bs - 1) / bs)%nat in
  let t := trace (train_model p w) in
  count_events is_optimizer_step t = (E * per_train)%nat
  /\ count_events is_zero_grad t = (E * (per_train + per_test))%nat
  /\ count_events is_forward t = (E * per_train + (E + 2) * per_test)%nat.
Proof.
  intros H Htr Hte Hok. cbn zeta.
  destruct (make_dataloaders_inv _ _ _ H) as (trainset & testset & _ & _ & Etr & Ete).
  assert (Ht : forall pass, length (batches (train_loader p) pass) =
                 ((length (dataset tr) + Pos.to_nat (batch_size dp) - 1)
                  / Pos.to_nat (batch_size dp))%nat).
  { intros pass. rewrite Htr, Etr. cbn [dataset batches]. unfold chunks.
    etransitivity; [apply chunks_fuel_length; lia|].
    rewrite (Permutation_length (train_pass_perm trainset pass)).
    now rewrite transform_train_length, length_map. }
  assert (Hv : forall pass, length (batches (validation_loader p) pass) =
                 ((length (dataset te) + Pos.to_nat (batch_size dp) - 1)
                  / Pos.to_nat (batch_size dp))%nat).
  { intros pass. rewrite Hte, Ete. cbn [dataset batches]. unfold chunks.
    apply chunks_fuel_length; lia. }
  destruct (train_model_ok_inv _ _ Hok) as [loc HK].
  destruct (train_model_full p w loc HK) as [_ E]. cbn zeta in E. rewrite E.
  cbn [trace].
  destruct (prefix_counts _ _ _ _ HK) as (_ & Io & _ & Iz & If).
  destruct (batches_upto_constant p (passes w) (Z.to_nat (num_epochs p)) _ _ Ht Hv)
    as [Ct Cv].
  rewrite Ct, Cv in *. rewrite (Hv (passes w)) in If. rewrite <- Hte.
  rewrite !count_events_app, Io, Iz, If, (Hv (passes (final _))). rewrite Hte.
  generalize ((length (dataset tr) + Pos.to_nat (batch_size dp) - 1)
              / Pos.to_nat (batch_size dp))%nat as ct.
  generalize ((length (dataset te) + Pos.to_nat (batch_size dp) - 1)
              / Pos.to_nat (batch_size dp))%nat as cv.
  intros cv ct. unfold test_events.
  repeat (rewrite ?count_events_app, ?count_events_cons,
            ?count_events_concat_replicate, ?count_events_replicate).
  unfold count_events. cbn. repeat split; lia.
Qed.

End Loaders.

(** ** The further properties on concrete runs *)


Lemma call_counts_witness :
  res (train_model (FW := Toy.toy) (Toy.toy_params 3 2) Toy.world0) = Ok tt
  /\ count_events is_scheduler_step
       (trace (train_model (FW := Toy.toy) (Toy.toy_params 3 2) Toy.world0)) = 3%nat
  /\ count_events is_optimizer_step
       (trace (train_model (FW := Toy.toy) (Toy.toy_params 3 2) Toy.world0)) = 3%nat
  /\ count_events is_zero_grad
       (trace (train_model (FW := Toy.toy) (Toy.toy_params 3 2) Toy.world0)) = 6%nat.
Proof.
  destruct (call_counts (FW := Toy.toy) (Toy.toy_params 3 2) Toy.world0)
    as (Hs & Ho & _ & Hz & _).
  - vm_compute. reflexivity.
  - split; [vm_compute; reflexivity|]. exact (conj Hs (conj Ho Hz)).
Defined.

Lemma scheduler_steps_first_witness :
  exists before after,
    trace (train_model (FW := Toy.toy) (Toy.toy_params 3 2) Toy.world0)
    = before ++ SchedulerStep :: after
    /\ count_events is_scheduler_step before = 0%nat
    /\ count_events is_optimizer_step before = 0%nat.
Proof.
  apply (proj2 (scheduler_steps_first (FW := Toy.toy) (Toy.toy_params 3 2) Toy.world0
                  ltac:(vm_compute; reflexivity))).
  vm_compute. discriminate.
Defined.


Lemma final_accuracy_repeats_last_validation_witness :
  exists acc,
    last (val_accuracies
            (trace (train_model (FW := Toy.toy) (Toy.toy_params 3 2) Toy.world0)))
    = Some acc
    /\ final_accuracies
         (trace (train_model (FW := Toy.toy) (Toy.toy_params 3 2) Toy.world0)) = [acc].
Proof.
  apply (final_accuracy_repeats_last_validation (FW := Toy.toy)
           (Toy.toy_params 3 2) Toy.world0).
  - vm_compute. reflexivity.
  - vm_compute. discriminate.
  - intros i j. reflexivity.
Defined.


Lemma checkpoint_on_disk_witness :
  exists j loc_j,
    (j < 3)%nat
    /\ res (train_prefix (FW := Toy.toy) (Toy.toy_params 3 2) (S j) Toy.world0) = Ok loc_j
    /\ files (final (train_prefix (FW := Toy.toy) (Toy.toy_params 3 2) 3 Toy.world0))
         !! "trained_models/toy.pt"%string
       = Some (best_model loc_j).
Proof.
  edestruct (checkpoint_on_disk (FW := Toy.toy) (Toy.toy_params 3 2) Toy.world0 3)
    as (j & loc_j & Hj & _ & _ & Hr & Hf).
  - lia.
  - vm_compute. reflexivity.
  - exists j, loc_j. exact (conj Hj (conj Hr Hf)).
Defined.

Lemma logged_scalars_witness :
  scalar_keys (trace (train_model (FW := Toy.toy) (Toy.toy_params 2 1) Toy.world0))
  = [("Loss"%string, Train, 0); ("Accuracy"%string, Train, 0);
     ("Loss"%string, Validation, 0); ("Accuracy"%string, Validation, 0);
     ("Loss"%string, Train, 1); ("Accuracy"%string, Train, 1);
     ("Loss"%string, Validation, 1); ("Accuracy"%string, Validation, 1)].
Proof.
  apply (logged_scalars (FW := Toy.toy) (Toy.toy_params 2 1) Toy.world0).
  vm_compute. reflexivity.
Defined.

Lemma test_loader_batches_witness :
  concat (batches (snd (ToyData.loaders 2)) 0) = dataset (snd (ToyData.loaders 2))
  /\ length (batches (snd (ToyData.loaders 2)) 0) = 3%nat.
Proof.
  destruct (test_loader_batches (DL := ToyData.toy_data) (ToyData.data_params 2)
              (fst (ToyData.loaders 2)) (snd (ToyData.loaders 2)))
    as [_ Hall].
  - vm_compute. reflexivity.
  - destruct (Hall 0%nat) as (Hc & _ & _ & Hl). exact (conj Hc Hl).
Defined.

Lemma train_loader_batches_witness :
  exists trainset : list (Z * Label),
    length trainset = 5%nat
    /\ Permutation (map snd (concat (batches (fst (ToyData.loaders 2)) 1)))
         (map snd trainset)
    /\ length (batches (fst (ToyData.loaders 2)) 1) = 3%nat.
Proof.
  destruct (train_loader_batches (DL := ToyData.toy_data) (ToyData.data_params 2)
              (fst (ToyData.loaders 2)) (snd (ToyData.loaders 2)))
    as (trainset & Htr & _ & Hall).
  - vm_compute. reflexivity.
  - exists trainset. destruct (Hall 1%nat) as (Hp & _ & _ & _ & Hl).
    injection Htr as <-. split; [reflexivity|]. exact (conj Hp Hl).
Defined.

Lemma test_model_on_test_split_witness :
  exists acc,
    res (test_model (FW := Toy.toy) (ToyData.run_params 2 0 1) Toy.world0) = Ok acc
    /\ (0 <= acc)%Q /\ (acc <= 1)%Q.
Proof.
  destruct (test_model_on_test_split (DL := ToyData.toy_data) (FW := Toy.toy)
              (ToyData.data_params 2)
              (fst (ToyData.loaders 2)) (snd (ToyData.loaders 2))
              (ToyData.run_params 2 0 1) Toy.world0)
    as (acc & Hr & _ & H0 & H1 & _).
  - vm_compute. reflexivity.
  - reflexivity.
  - vm_compute. discriminate.
  - exists acc. exact (conj Hr (conj H0 H1)).
Defined.

Lemma test_accuracy_independent_of_batch_size_witness :
  exists acc acc',
    res (test_model (FW := Toy.toy) (ToyData.run_params 2 0 1) Toy.world0) = Ok acc
    /\ res (test_model (FW := Toy.toy) (ToyData.run_params 5 0 1) Toy.world0) = Ok acc'
    /\ (acc == acc')%Q.
Proof.
  eexists. eexists.
  split; [vm_compute; reflexivity|]. split; [vm_compute; reflexivity|].
  apply (test_accuracy_independent_of_batch_size (DL := ToyData.toy_data) (FW := Toy.toy)
           (ToyData.data_params 2) (ToyData.data_params 5)
           (fst (ToyData.loaders 2)) (snd (ToyData.loaders 2))
           (fst (ToyData.loaders 5)) (snd (ToyData.loaders 5))
           (ToyData.run_params 2 0 1) (ToyData.run_params 5 0 1) Toy.world0).
  - vm_compute. reflexivity.
  - vm_compute. reflexivity.
  - reflexivity.
  - reflexivity.
  - reflexivity.
  - vm_compute. reflexivity.
  - vm_compute. reflexivity.
Defined.

Lemma updates_per_run_witness :
  res (train_model (FW := Toy.toy) (ToyData.run_params 2 3 2) Toy.world0) = Ok tt
  /\ count_events is_optimizer_step
       (trace (train_model (FW := Toy.toy) (ToyData.run_params 2 3 2) Toy.world0)) = 9%nat
  /\ count_events is_forward
       (trace (train_model (FW := Toy.toy) (ToyData.run_params 2 3 2) Toy.world0)) = 24%nat.
Proof.
  destruct (updates_per_run (DL := ToyData.toy_data) (FW := Toy.toy)
              (ToyData.data_params 2)
              (fst (ToyData.loaders 2)) (snd (ToyData.loaders 2))
              (ToyData.run_params 2 3 2) Toy.world0)
    as (Ho & _ & Hf).
  - vm_compute. reflexivity.
  - reflexivity.
  - reflexivity.
  - vm_compute. reflexivity.
  - split; [vm_compute; reflexivity|]. exact (conj Ho Hf).
Defined.
